(** * Puter connection: adapter, model catalog and settings panel controller

    A shallow embedding of
    - [src/lib/types/puter.ts]   (module [PuterTypes]),
    - [src/lib/apis/puter/index.ts]   (module [PuterAPI]),
    - the script of
      [src/lib/components/admin/Settings/Connections/PuterConnection.svelte]
      (module [PuterConnection]),
    followed by the properties established about them. *)

From Stdlib Require Import NArith ZArith List String Ascii Bool Lia.
From stdpp Require Import base decidable countable list gmap.

Local Open Scope N_scope.

(* ===================================================================== *)
(** ** JavaScript values used by the program *)
(* ===================================================================== *)

Module JS.

(** A JavaScript string is a sequence of UTF-16 code units. *)
Definition code_unit := N.
Definition jsstring := list code_unit.

(** String literals of the source, written as Rocq string literals. *)
Fixpoint lit (s : string) : jsstring :=
  match s with
  | EmptyString => []
  | String a s' => N_of_ascii a :: lit s'
  end.

(** Truthiness of a string in a condition: every non-empty string. *)
Definition truthy (s : jsstring) : bool :=
  match s with [] => false | _ :: _ => true end.

(** [a || b] on strings. *)
Definition or_else (a b : jsstring) : jsstring :=
  if truthy a then a else b.

(** [a || undefined] on a string: the string, or absent. *)
Definition or_undefined (a : jsstring) : option jsstring :=
  if truthy a then Some a else None.

(** [o?.f || d] where [o?.f] is a possibly absent string. *)
Definition opt_or_else (a : option jsstring) (b : jsstring) : jsstring :=
  match a with
  | Some s => or_else s b
  | None => b
  end.

(** WhiteSpace and LineTerminator code points of ECMAScript, the ones
    [String.prototype.trim] strips. *)
Definition isWhiteSpace (c : code_unit) : bool :=
  (c =? 0x9) || (c =? 0xA) || (c =? 0xB) || (c =? 0xC) || (c =? 0xD)
  || (c =? 0x20) || (c =? 0xA0) || (c =? 0x1680)
  || ((0x2000 <=? c) && (c <=? 0x200A))
  || (c =? 0x2028) || (c =? 0x2029) || (c =? 0x202F) || (c =? 0x205F)
  || (c =? 0x3000) || (c =? 0xFEFF).

Fixpoint trimStart (s : jsstring) : jsstring :=
  match s with
  | [] => []
  | c :: s' => if isWhiteSpace c then trimStart s' else s
  end.

Definition trimEnd (s : jsstring) : jsstring :=
  reverse (trimStart (reverse s)).

(** [s.trim()] *)
Definition trim (s : jsstring) : jsstring := trimEnd (trimStart s).

(** [s.slice(0, n)] for a non-negative [n]. *)
Definition slice0 (n : nat) (s : jsstring) : jsstring := take n s.

Definition colon : code_unit := 0x3A.

(** [s.includes(sep)] for a separator of one code unit. *)
Definition includes (sep : code_unit) (s : jsstring) : bool :=
  existsb (N.eqb sep) s.

(** [s.split(sep)] for a separator of one code unit: the segments between
    the occurrences of the separator; never empty. *)
Fixpoint split (sep : code_unit) (s : jsstring) : list jsstring :=
  match s with
  | [] => [[]]
  | c :: s' =>
      if c =? sep then [] :: split sep s'
      else match split sep s' with
           | seg :: segs => (c :: seg) :: segs
           | [] => [[c]]
           end
  end.

(** [a[0]] on an array of strings; [split] never returns an empty array. *)
Definition first (segs : list jsstring) : jsstring :=
  match segs with
  | seg :: _ => seg
  | [] => []
  end.

(** A thrown value. Every value the program throws or catches is an
    [Error] carrying a message, or the [TypeError] of a property read on
    [undefined]. *)
Inductive JsError :=
| Error (message : jsstring)
| TypeError.

(** The completion of a call: a value, or a thrown error (for an async
    function: a fulfilled or a rejected promise). *)
Inductive Completion (A : Type) :=
| Returns (a : A)
| Throws (e : JsError).
Arguments Returns {A} a.
Arguments Throws {A} e.

Definition bind {A B} (c : Completion A) (k : A -> Completion B)
  : Completion B :=
  match c with
  | Returns a => k a
  | Throws e => Throws e
  end.

(** [try { c } catch (error) { h error }] *)
Definition try_catch {A} (c : Completion A) (h : JsError -> Completion A)
  : Completion A :=
  match c with
  | Returns a => Returns a
  | Throws e => h e
  end.

(** A number that the program only passes along: a decimal
    [mantissa * 10 ^ exponent]. *)
Record number := { mantissa : Z; exponent : Z }.

End JS.

Import JS.

(** [x ← c; k] sequences completions: a thrown error skips the rest. *)
#[global] Instance completion_ret : MRet Completion := @Returns.
#[global] Instance completion_bind : MBind Completion :=
  fun A B k c => bind c k.

(* ===================================================================== *)
(** ** [src/lib/types/puter.ts] *)
(* ===================================================================== *)

Module PuterTypes.

Record PuterUser := {
  uuid : jsstring;
  username : jsstring;
  email : option jsstring;
  email_confirmed : option bool
}.

Inductive Role := system | user | assistant.

Record PuterChatMessage := {
  role : Role;
  content : jsstring
}.

Record PuterChatOptions := {
  model : option jsstring;
  temperature : option number;
  max_tokens : option number;
  stream : option bool
}.

Record Usage := {
  prompt_tokens : number;
  completion_tokens : number
}.

(** [message.role] is always ['assistant']; only the content is kept. *)
Record PuterChatResponse := {
  message_content : jsstring;
  usage : option Usage
}.

Record PuterStreamChunk := {
  text : option jsstring
}.

Record PuterModel := {
  id : jsstring;
  name : option jsstring;
  provider : option jsstring;
  endpoint : option jsstring
}.

Record PuterCustomModel := {
  cm_id : jsstring;
  cm_endpoint : option jsstring
}.

Record PuterErrorInfo := {
  err_message : option jsstring;
  err_code : option jsstring
}.

(** [success] has the literal type [false]; only [error?] varies. *)
Record PuterErrorResponse := {
  error : option PuterErrorInfo
}.

(** How an [AsyncIterable] ends: exhausted, or its [next()] rejects. *)
Inductive StreamEnd :=
| Exhausted
| Fails (e : JsError).

(** What [puter.ai.chat] resolves to: one of the two declared shapes, or
    the error payload that [chat] checks for at run time. The iterable is
    given by the chunks it yields, in order, and by how it ends. *)
Inductive RawResponse :=
| ErrorPayload (e : PuterErrorResponse)
| AsyncIterable (chunks : list PuterStreamChunk) (ending : StreamEnd)
| ChatResponse (r : PuterChatResponse).

(** The injected SDK object. Each method is given by the completion of a
    call to it. *)
Record PuterAuth := {
  auth_signIn : Completion bool;
  auth_signOut : Completion unit;
  auth_isSignedIn : bool;
  auth_getUser : Completion PuterUser
}.

Record PuterAI := {
  ai_chat : list PuterChatMessage -> PuterChatOptions -> Completion RawResponse;
  ai_listModels : Completion (list PuterModel)
}.

Record Puter := {
  auth : PuterAuth;
  ai : PuterAI
}.

Record PuterAuthState := {
  isSignedIn_ : bool;
  user_ : option PuterUser
}.

(** [window.puter?: Puter] *)
Definition Window := option Puter.

End PuterTypes.

Import PuterTypes.

(* ===================================================================== *)
(** ** [src/lib/apis/puter/index.ts] *)
(* ===================================================================== *)

Module PuterAPI.

(** [typeof window.puter !== 'undefined'] *)
Definition isPuterAvailable (w : Window) : bool :=
  match w with
  | Some _ => true
  | None => false
  end.

Definition sdkNotLoaded : JsError :=
  Error (lit "Puter SDK is not loaded. Make sure the script is included in app.html.").

Definition getPuter (w : Window) : Completion Puter :=
  match w with
  | None => Throws sdkNotLoaded
  | Some puter => Returns puter
  end.

Definition signIn (w : Window) : Completion bool :=
  puter ← getPuter w;
  try_catch (auth_signIn (auth puter)) (fun error => Throws error).

Definition signOut (w : Window) : Completion unit :=
  puter ← getPuter w;
  auth_signOut (auth puter).

Definition isSignedIn (w : Window) : Completion bool :=
  if negb (isPuterAvailable w) then Returns false
  else puter ← getPuter w; Returns (auth_isSignedIn (auth puter)).

Definition getUser (w : Window) : Completion (option PuterUser) :=
  signedIn ← isSignedIn w;
  if negb signedIn then Returns None
  else
    try_catch
      (puter ← getPuter w;
       user ← auth_getUser (auth puter);
       Returns (Some user))
      (fun _ => Returns None).

Definition getAuthState (w : Window) : Completion PuterAuthState :=
  signedIn ← isSignedIn w;
  user ← (if signedIn then getUser w else Returns None);
  Returns {| isSignedIn_ := signedIn; user_ := user |}.

(** *** Streaming chat *)

(** What an observer of one [chat] call sees, in order: the calls of the
    three callbacks, and the moment the caller invokes [abort()] on the
    returned controller. *)
Inductive Event :=
| Aborted
| OnToken (token : jsstring)
| OnComplete (fullText : jsstring) (usage : option Usage)
| OnError (error : JsError).

(** The controller can only be aborted while [chat] is suspended at an
    [await]: on the call of [puter.ai.chat], or on one of the [next()]
    calls of the [for await] loop (numbered from 0; the call numbered
    [length chunks] is the one that reports the end of the iteration). An
    [abort()] that comes later than that finds [chat] finished and shows in
    no trace. *)
Inductive CancelPoint :=
| NotCancelled
| DuringCall
| DuringNext (k : nat).

(** [{ ...options, stream: b }] *)
Definition withStream (options : PuterChatOptions) (b : bool)
  : PuterChatOptions :=
  {| model := model options;
     temperature := temperature options;
     max_tokens := max_tokens options;
     stream := Some b |}.

(** [errorResponse.error?.message || errorResponse.error?.code
     || 'Puter API error'] *)
Definition errorMessage (errorResponse : PuterErrorResponse) : jsstring :=
  opt_or_else (error errorResponse ≫= err_message)
    (opt_or_else (error errorResponse ≫= err_code)
       (lit "Puter API error")).

(** The state of the [try] block of [chat]: the events so far, the
    [aborted] flag of the controller's signal, the local [fullText], and
    the error thrown, if any. *)
Record Run := {
  emitted : list Event;
  aborted : bool;
  fullText : jsstring;
  thrown : option JsError
}.

Definition abortsAt (cancel : CancelPoint) (i : nat) : bool :=
  match cancel with
  | DuringNext k => Nat.eqb k i
  | _ => false
  end.

Definition emit_first (evs : list Event) (r : Run) : Run :=
  {| emitted := evs ++ emitted r;
     aborted := aborted r;
     fullText := fullText r;
     thrown := thrown r |}.

(** The [for await] loop, from its [i]-th [next()] on. *)
Fixpoint forAwait (cancel : CancelPoint) (i : nat)
    (chunks : list PuterStreamChunk) (ending : StreamEnd)
    (isAborted : bool) (text_ : jsstring) : Run :=
  let abortNow := abortsAt cancel i in
  let isAborted := isAborted || abortNow in
  emit_first (if abortNow then [Aborted] else [])
    match chunks with
    | [] =>
        {| emitted := []; aborted := isAborted; fullText := text_;
           thrown := match ending with
                     | Exhausted => None
                     | Fails e => Some e
                     end |}
    | chunk :: rest =>
        if isAborted then
          (* break *)
          {| emitted := []; aborted := isAborted; fullText := text_;
             thrown := None |}
        else
          match text chunk with
          | Some t =>
              if truthy t then
                emit_first [OnToken t]
                  (forAwait cancel (S i) rest ending isAborted (text_ ++ t))
              else forAwait cancel (S i) rest ending isAborted text_
          | None => forAwait cancel (S i) rest ending isAborted text_
          end
    end.

(** The [try] block, once [puter.ai.chat] has settled. *)
Definition chatTry (settled : Completion RawResponse)
    (cancel : CancelPoint) (isAborted : bool) : Run :=
  match settled with
  | Throws e =>
      {| emitted := []; aborted := isAborted; fullText := []; thrown := Some e |}
  | Returns (ErrorPayload errorResponse) =>
      {| emitted := []; aborted := isAborted; fullText := [];
         thrown := Some (Error (errorMessage errorResponse)) |}
  | Returns (AsyncIterable chunks ending) =>
      let r := forAwait cancel 0 chunks ending isAborted [] in
      match thrown r with
      | Some _ => r
      | None =>
          {| emitted := emitted r ++ [OnComplete (fullText r) None];
             aborted := aborted r; fullText := fullText r; thrown := None |}
      end
  | Returns (ChatResponse result) =>
      let text_ := message_content result in
      {| emitted := [OnToken text_; OnComplete text_ (usage result)];
         aborted := isAborted; fullText := text_; thrown := None |}
  end.

(** [chat]: the events of the call, or the error it throws before any
    callback can run. *)
Definition chat (w : Window) (messages : list PuterChatMessage)
    (options : PuterChatOptions) (cancel : CancelPoint)
  : Completion (list Event) :=
  puter ← getPuter w;
  let abortNow := match cancel with DuringCall => true | _ => false end in
  let r := chatTry (ai_chat (ai puter) messages (withStream options true))
             cancel abortNow in
  Returns
    ((if abortNow then [Aborted] else [])
     ++ emitted r
     ++ match thrown r with
        | Some e => if aborted r then [] else [OnError e]
        | None => []
        end).

(** *** Non-streaming chat *)

Record ChatResult := {
  cr_text : jsstring;
  cr_usage : option Usage
}.

Definition chatSync (w : Window) (messages : list PuterChatMessage)
    (options : PuterChatOptions) : Completion ChatResult :=
  puter ← getPuter w;
  response ← ai_chat (ai puter) messages (withStream options false);
  match response with
  | ChatResponse result =>
      Returns {| cr_text := message_content result; cr_usage := usage result |}
  | _ => Throws TypeError
  end.

Definition listModels (w : Window) : Completion (list PuterModel) :=
  puter ← getPuter w;
  try_catch (ai_listModels (ai puter)) (fun _ => Returns []).

(** *** Model catalog *)

Definition curated (i n p : string) : PuterModel :=
  {| id := lit i; name := Some (lit n); provider := Some (lit p);
     endpoint := None |}.

Definition CURATED_PUTER_MODELS : list PuterModel := [
  curated "gpt-4o" "GPT-4o" "openai";
  curated "gpt-4o-mini" "GPT-4o Mini" "openai";
  curated "gpt-4.1" "GPT-4.1" "openai";
  curated "gpt-4.1-mini" "GPT-4.1 Mini" "openai";
  curated "gpt-4.1-nano" "GPT-4.1 Nano" "openai";
  curated "o1" "o1" "openai";
  curated "o1-mini" "o1 Mini" "openai";
  curated "o3-mini" "o3 Mini" "openai";
  curated "claude-sonnet-4-20250514" "Claude Sonnet 4" "anthropic";
  curated "claude-3-7-sonnet-20250219" "Claude 3.7 Sonnet" "anthropic";
  curated "claude-3-5-sonnet-20241022" "Claude 3.5 Sonnet" "anthropic";
  curated "claude-haiku-4-5-20251001" "Claude Haiku 4.5" "anthropic";
  curated "gemini-2.0-flash" "Gemini 2.0 Flash" "google";
  curated "gemini-2.5-flash" "Gemini 2.5 Flash" "google";
  curated "gemini-2.5-pro" "Gemini 2.5 Pro" "google";
  curated "deepseek-chat" "DeepSeek Chat" "deepseek";
  curated "deepseek-reasoner" "DeepSeek Reasoner" "deepseek";
  curated "mistral-large-latest" "Mistral Large" "mistral";
  curated "mistral-small-2506" "Mistral Small" "mistral";
  curated "grok-3" "Grok 3" "xai";
  curated "grok-3-mini" "Grok 3 Mini" "xai"
].

Definition getCuratedModels : list PuterModel := CURATED_PUTER_MODELS.

(** [m.endpoint?.trim() || undefined] *)
Definition trimmedEndpoint (e : option jsstring) : option jsstring :=
  e ≫= (fun s => or_undefined (trim s)).

Definition getModelsWithCustom (customModels : list PuterCustomModel)
  : list PuterModel :=
  let curated := getCuratedModels in
  let curatedIds : gset jsstring := list_to_set (map id curated) in
  let custom :=
    map (fun m =>
           {| id := trim (cm_id m);
              name := Some (trim (cm_id m));
              provider :=
                Some (if includes colon (cm_id m)
                      then first (split colon (cm_id m))
                      else lit "custom");
              endpoint := trimmedEndpoint (cm_endpoint m) |})
      (List.filter
         (fun m => truthy (cm_id m) && truthy (trim (cm_id m))
                   && negb (bool_decide (trim (cm_id m) ∈ curatedIds)))
         customModels) in
  curated ++ custom.

Definition getModels : Completion (list PuterModel) :=
  Returns getCuratedModels.

Definition DEFAULT_PUTER_MODELS : list jsstring :=
  map id CURATED_PUTER_MODELS.

(** *** Conversation titles *)

Definition titlePrompt : jsstring :=
  lit "Generate a very brief title (3-6 words) for this conversation. Reply with ONLY the title, no quotes or punctuation.".

Definition titleMessages (userMessage assistantMessage : jsstring)
  : list PuterChatMessage :=
  [ {| role := system; content := titlePrompt |};
    {| role := user;
       content := lit "User: " ++ slice0 200 userMessage
                  ++ [0xA; 0xA] ++ lit "Assistant: "
                  ++ slice0 200 assistantMessage |} ].

Definition titleOptions : PuterChatOptions :=
  {| model := Some (lit "gpt-4o-mini");
     temperature := Some {| mantissa := 7; exponent := -1 |};
     max_tokens := None;
     stream := None |}.

Definition generateTitle (w : Window) (userMessage assistantMessage : jsstring)
  : Completion jsstring :=
  try_catch
    (result ← chatSync w (titleMessages userMessage assistantMessage)
                titleOptions;
     Returns (slice0 100 (trim (cr_text result))))
    (fun _ => Returns (lit "New Chat")).

End PuterAPI.

(* ===================================================================== *)
(** ** Script of [PuterConnection.svelte] *)
(* ===================================================================== *)

Module PuterConnection.

(** The component's own [CustomModel] interface has the fields of
    [PuterCustomModel]. *)
Definition CustomModel := PuterCustomModel.

(** An entry of the application's [models] store, with the fields this
    component writes. *)
Record GlobalModel := {
  g_id : jsstring;
  g_name : jsstring;
  owned_by : jsstring;
  external : bool;
  puter : bool
}.

(** An element of the persisted [puterCustomModels] array: a plain string
    (the old format) or an object. *)
Inductive StoredCustomModel :=
| LegacyString (s : jsstring)
| StoredObject (m : CustomModel).

(** The part of the [settings] store this component reads and writes.
    [None] is an absent field (for [puterCustomModels]: absent, falsy or
    not an array). *)
Record Settings := {
  s_puterEnabled : option bool;
  s_puterCustomModels : option (list StoredCustomModel)
}.

Inductive Toast :=
| toast_error (msg : jsstring)
| toast_success (msg : jsstring).

Record State := {
  (* stores *)
  puterEnabled : bool;
  puterSignedIn : bool;
  puterUser : option (jsstring * option jsstring);
  models : list GlobalModel;
  settings : Settings;
  (* component variables *)
  loading : bool;
  availableModels : list jsstring;
  newCustomModelId : jsstring;
  newCustomModelEndpoint : jsstring;
  customModels : list CustomModel;
  (* calls made to collaborators, oldest first *)
  toasts : list Toast;
  userSettingsUpdates : list Settings;
  changeEvents : list bool
}.

Definition set_puterEnabled (v : bool) (st : State) : State :=
  {| puterEnabled := v; puterSignedIn := puterSignedIn st;
     puterUser := puterUser st; models := models st;
     settings := settings st; loading := loading st;
     availableModels := availableModels st;
     newCustomModelId := newCustomModelId st;
     newCustomModelEndpoint := newCustomModelEndpoint st;
     customModels := customModels st; toasts := toasts st;
     userSettingsUpdates := userSettingsUpdates st;
     changeEvents := changeEvents st |}.

Definition set_puterSignedIn (v : bool) (st : State) : State :=
  {| puterEnabled := puterEnabled st; puterSignedIn := v;
     puterUser := puterUser st; models := models st;
     settings := settings st; loading := loading st;
     availableModels := availableModels st;
     newCustomModelId := newCustomModelId st;
     newCustomModelEndpoint := newCustomModelEndpoint st;
     customModels := customModels st; toasts := toasts st;
     userSettingsUpdates := userSettingsUpdates st;
     changeEvents := changeEvents st |}.

Definition set_puterUser (v : option (jsstring * option jsstring))
    (st : State) : State :=
  {| puterEnabled := puterEnabled st; puterSignedIn := puterSignedIn st;
     puterUser := v; models := models st;
     settings := settings st; loading := loading st;
     availableModels := availableModels st;
     newCustomModelId := newCustomModelId st;
     newCustomModelEndpoint := newCustomModelEndpoint st;
     customModels := customModels st; toasts := toasts st;
     userSettingsUpdates := userSettingsUpdates st;
     changeEvents := changeEvents st |}.

Definition set_models (v : list GlobalModel) (st : State) : State :=
  {| puterEnabled := puterEnabled st; puterSignedIn := puterSignedIn st;
     puterUser := puterUser st; models := v;
     settings := settings st; loading := loading st;
     availableModels := availableModels st;
     newCustomModelId := newCustomModelId st;
     newCustomModelEndpoint := newCustomModelEndpoint st;
     customModels := customModels st; toasts := toasts st;
     userSettingsUpdates := userSettingsUpdates st;
     changeEvents := changeEvents st |}.

Definition set_settings (v : Settings) (st : State) : State :=
  {| puterEnabled := puterEnabled st; puterSignedIn := puterSignedIn st;
     puterUser := puterUser st; models := models st;
     settings := v; loading := loading st;
     availableModels := availableModels st;
     newCustomModelId := newCustomModelId st;
     newCustomModelEndpoint := newCustomModelEndpoint st;
     customModels := customModels st; toasts := toasts st;
     userSettingsUpdates := userSettingsUpdates st;
     changeEvents := changeEvents st |}.

Definition set_loading (v : bool) (st : State) : State :=
  {| puterEnabled := puterEnabled st; puterSignedIn := puterSignedIn st;
     puterUser := puterUser st; models := models st;
     settings := settings st; loading := v;
     availableModels := availableModels st;
     newCustomModelId := newCustomModelId st;
     newCustomModelEndpoint := newCustomModelEndpoint st;
     customModels := customModels st; toasts := toasts st;
     userSettingsUpdates := userSettingsUpdates st;
     changeEvents := changeEvents st |}.

Definition set_availableModels (v : list jsstring) (st : State) : State :=
  {| puterEnabled := puterEnabled st; puterSignedIn := puterSignedIn st;
     puterUser := puterUser st; models := models st;
     settings := settings st; loading := loading st;
     availableModels := v;
     newCustomModelId := newCustomModelId st;
     newCustomModelEndpoint := newCustomModelEndpoint st;
     customModels := customModels st; toasts := toasts st;
     userSettingsUpdates := userSettingsUpdates st;
     changeEvents := changeEvents st |}.

Definition set_newCustomModelId (v : jsstring) (st : State) : State :=
  {| puterEnabled := puterEnabled st; puterSignedIn := puterSignedIn st;
     puterUser := puterUser st; models := models st;
     settings := settings st; loading := loading st;
     availableModels := availableModels st;
     newCustomModelId := v;
     newCustomModelEndpoint := newCustomModelEndpoint st;
     customModels := customModels st; toasts := toasts st;
     userSettingsUpdates := userSettingsUpdates st;
     changeEvents := changeEvents st |}.

Definition set_newCustomModelEndpoint (v : jsstring) (st : State) : State :=
  {| puterEnabled := puterEnabled st; puterSignedIn := puterSignedIn st;
     puterUser := puterUser st; models := models st;
     settings := settings st; loading := loading st;
     availableModels := availableModels st;
     newCustomModelId := newCustomModelId st;
     newCustomModelEndpoint := v;
     customModels := customModels st; toasts := toasts st;
     userSettingsUpdates := userSettingsUpdates st;
     changeEvents := changeEvents st |}.

Definition set_customModels (v : list CustomModel) (st : State) : State :=
  {| puterEnabled := puterEnabled st; puterSignedIn := puterSignedIn st;
     puterUser := puterUser st; models := models st;
     settings := settings st; loading := loading st;
     availableModels := availableModels st;
     newCustomModelId := newCustomModelId st;
     newCustomModelEndpoint := newCustomModelEndpoint st;
     customModels := v; toasts := toasts st;
     userSettingsUpdates := userSettingsUpdates st;
     changeEvents := changeEvents st |}.

Definition add_toast (v : Toast) (st : State) : State :=
  {| puterEnabled := puterEnabled st; puterSignedIn := puterSignedIn st;
     puterUser := puterUser st; models := models st;
     settings := settings st; loading := loading st;
     availableModels := availableModels st;
     newCustomModelId := newCustomModelId st;
     newCustomModelEndpoint := newCustomModelEndpoint st;
     customModels := customModels st; toasts := toasts st ++ [v];
     userSettingsUpdates := userSettingsUpdates st;
     changeEvents := changeEvents st |}.

Definition add_userSettingsUpdate (v : Settings) (st : State) : State :=
  {| puterEnabled := puterEnabled st; puterSignedIn := puterSignedIn st;
     puterUser := puterUser st; models := models st;
     settings := settings st; loading := loading st;
     availableModels := availableModels st;
     newCustomModelId := newCustomModelId st;
     newCustomModelEndpoint := newCustomModelEndpoint st;
     customModels := customModels st; toasts := toasts st;
     userSettingsUpdates := userSettingsUpdates st ++ [v];
     changeEvents := changeEvents st |}.

Definition add_changeEvent (v : bool) (st : State) : State :=
  {| puterEnabled := puterEnabled st; puterSignedIn := puterSignedIn st;
     puterUser := puterUser st; models := models st;
     settings := settings st; loading := loading st;
     availableModels := availableModels st;
     newCustomModelId := newCustomModelId st;
     newCustomModelEndpoint := newCustomModelEndpoint st;
     customModels := customModels st; toasts := toasts st;
     userSettingsUpdates := userSettingsUpdates st;
     changeEvents := changeEvents st ++ [v] |}.

(** A handler: it reads and writes the state, and completes or throws.
    What it wrote before throwing stays written. *)
Definition Action (A : Type) : Type := State -> State * Completion A.

Definition act_ret {A} (a : A) : Action A := fun st => (st, Returns a).

Definition act_bind {A B} (k : A -> Action B) (a : Action A) : Action B :=
  fun st =>
    match a st with
    | (st', Returns x) => k x st'
    | (st', Throws e) => (st', Throws e)
    end.

#[global] Instance action_ret : MRet Action := @act_ret.
#[global] Instance action_bind : MBind Action := @act_bind.

Definition gets {A} (f : State -> A) : Action A :=
  fun st => (st, Returns (f st)).

Definition modify (f : State -> State) : Action unit :=
  fun st => (f st, Returns tt).

(** A call into the adapter. *)
Definition call {A} (c : Completion A) : Action A :=
  fun st => (st, c).

Definition skip : Action unit := act_ret tt.

(** The state a handler leaves behind. *)
Definition exec {A} (a : Action A) (st : State) : State := fst (a st).

Section Handlers.

Import PuterAPI.

(** The page's [window.puter]. *)
Variable window : Window.
(** What [_getModels(...)] resolves to: the models of the other
    providers. *)
Variable baseModels : list GlobalModel.
(** [$i18n.t] *)
Variable t : jsstring -> jsstring.

(** [m.id || m.name || 'unknown'] *)
Definition modelLabel (m : PuterModel) : jsstring :=
  or_else (id m) (opt_or_else (name m) (lit "unknown")).

Definition formatPuterModel (m : PuterModel) : GlobalModel :=
  {| g_id := lit "puter/" ++ modelLabel m;
     g_name := lit "Puter: "
               ++ opt_or_else (name m) (or_else (id m) (lit "Unknown Model"));
     owned_by := lit "puter";
     external := true;
     puter := true |}.

Definition refreshGlobalModels : Action unit :=
  let allModels := baseModels in
  enabled ← gets puterEnabled;
  custom ← gets customModels;
  let allModels :=
    if enabled && isPuterAvailable window then
      let puterModels := getModelsWithCustom custom in
      if (0 <? length puterModels)%nat
      then allModels ++ map formatPuterModel puterModels
      else allModels
    else allModels in
  modify (set_models allModels).

Definition refreshModels : Action unit :=
  if negb (isPuterAvailable window) then skip
  else
    modify (set_loading true);;
    custom ← gets customModels;
    modify (set_availableModels (map modelLabel (getModelsWithCustom custom)));;
    modify (set_loading false).

(** The tail of [handleToggle]: write [puterEnabled] into the settings
    store, send the settings to [updateUserSettings], dispatch
    ['change']. *)
Definition saveEnabled : Action unit :=
  enabled ← gets puterEnabled;
  modify (fun st =>
            set_settings
              {| s_puterEnabled := Some enabled;
                 s_puterCustomModels := s_puterCustomModels (settings st) |}
              st);;
  s ← gets settings;
  modify (add_userSettingsUpdate s);;
  enabled ← gets puterEnabled;
  modify (add_changeEvent enabled).

(** Runs after the switch has written its new position into
    [puterEnabled]. *)
Definition handleToggle : Action unit :=
  enabled ← gets puterEnabled;
  if (enabled : bool) then
    (* Enabling Puter *)
    if isPuterAvailable window then
      signedIn ← call (isSignedIn window);
      (if (signedIn : bool) then
         modify (set_puterSignedIn true);;
         u ← call (getUser window);
         match u with
         | Some u => modify (set_puterUser (Some (username u, email u)))
         | None => skip
         end;;
         refreshModels;;
         refreshGlobalModels
       else skip);;
      saveEnabled
    else
      modify (add_toast (toast_error (t (lit "Puter SDK not available"))));;
      modify (set_puterEnabled false)
      (* return *)
  else
    (* Disabling Puter *)
    modify (set_availableModels []);;
    refreshGlobalModels;;
    saveEnabled.

Definition saveCustomModels : Action unit :=
  custom ← gets customModels;
  modify (fun st =>
            set_settings
              {| s_puterEnabled := s_puterEnabled (settings st);
                 s_puterCustomModels := Some (map StoredObject custom) |}
              st);;
  s ← gets settings;
  modify (add_userSettingsUpdate s).

Definition addCustomModel : Action unit :=
  rawId ← gets newCustomModelId;
  let modelId := trim rawId in
  if negb (truthy modelId) then
    modify (add_toast (toast_error (t (lit "Please enter a model ID"))))
  else
    existing ← gets customModels;
    if existsb (fun m => bool_decide (cm_id m = modelId)) existing then
      modify (add_toast (toast_error (t (lit "Model already added"))))
    else
      rawEndpoint ← gets newCustomModelEndpoint;
      let newModel :=
        {| cm_id := modelId;
           cm_endpoint := or_undefined (trim rawEndpoint) |} in
      modify (set_customModels (existing ++ [newModel]));;
      modify (set_newCustomModelId []);;
      modify (set_newCustomModelEndpoint []);;
      saveCustomModels;;
      refreshModels;;
      refreshGlobalModels;;
      modify (add_toast (toast_success (t (lit "Custom model added")))).

Definition removeCustomModel (modelId : jsstring) : Action unit :=
  existing ← gets customModels;
  modify (set_customModels
            (List.filter (fun m => negb (bool_decide (cm_id m = modelId)))
               existing));;
  saveCustomModels;;
  refreshModels;;
  refreshGlobalModels;;
  modify (add_toast (toast_success (t (lit "Custom model removed")))).

(** The migration applied to each element of the persisted array. *)
Definition migrate (m : StoredCustomModel) : CustomModel :=
  match m with
  | LegacyString s => {| cm_id := s; cm_endpoint := None |}
  | StoredObject o => o
  end.

Definition onMount : Action unit :=
  s ← gets settings;
  match s_puterEnabled s with
  | Some b => modify (set_puterEnabled b)
  | None => skip
  end;;
  match s_puterCustomModels s with
  | Some stored => modify (set_customModels (map migrate stored))
  | None => skip
  end;;
  signedIn ← (if isPuterAvailable window then call (isSignedIn window)
              else mret false);
  if (signedIn : bool) then
    modify (set_puterSignedIn true);;
    u ← call (getUser window);
    match u with
    | Some u => modify (set_puterUser (Some (username u, email u)))
    | None => skip
    end;;
    enabled ← gets puterEnabled;
    if (enabled : bool) then refreshModels else skip
  else skip.

End Handlers.

(** A component that has just been created: its variables hold their
    initialisers, the stores hold what the application put there. *)
Definition created (enabled signedIn : bool)
    (u : option (jsstring * option jsstring))
    (ms : list GlobalModel) (s : Settings) : State :=
  {| puterEnabled := enabled; puterSignedIn := signedIn; puterUser := u;
     models := ms; settings := s;
     loading := false; availableModels := [];
     newCustomModelId := []; newCustomModelEndpoint := [];
     customModels := [];
     toasts := []; userSettingsUpdates := []; changeEvents := [] |}.

End PuterConnection.

(* ===================================================================== *)
(** ** Script of [PuterConnection.svelte]: signing in and out, refreshing,
       editing an endpoint *)
(* ===================================================================== *)

Module PuterPanel.

Import PuterAPI PuterConnection.

(** [try { a } catch (error) { h error }] in a handler: what [a] wrote
    before throwing stays written. *)
Definition act_try {A} (a : Action A) (h : JsError -> Action A) : Action A :=
  fun st =>
    match a st with
    | (st', Returns x) => (st', Returns x)
    | (st', Throws e) => h e st'
    end.

Section Handlers.

Variable window : Window.
Variable baseModels : list GlobalModel.
Variable t : jsstring -> jsstring.
(** The message the engine gives to the [TypeError] of a property read on
    [undefined]. *)
Variable typeErrorMessage : jsstring.

(** [error.message] *)
Definition message_of (e : JsError) : jsstring :=
  match e with
  | Error message => message
  | TypeError => typeErrorMessage
  end.

Definition handleSignIn : Action unit :=
  modify (set_loading true);;
  act_try
    (success ← call (signIn window);
     if (success : bool) then
       modify (set_puterSignedIn true);;
       u ← call (getUser window);
       match u with
       | Some u => modify (set_puterUser (Some (username u, email u)))
       | None => skip
       end;;
       modify (add_toast (toast_success (t (lit "Signed in with Puter"))));;
       refreshModels window;;
       refreshGlobalModels window baseModels
     else skip)
    (fun error =>
       modify (add_toast
                 (toast_error (lit "Sign in failed: " ++ message_of error))));;
  modify (set_loading false).

Definition handleSignOut : Action unit :=
  modify (set_loading true);;
  act_try
    (call (signOut window);;
     modify (set_puterSignedIn false);;
     modify (set_puterUser None);;
     modify (set_availableModels []);;
     modify (add_toast (toast_success (t (lit "Signed out from Puter"))));;
     refreshGlobalModels window baseModels)
    (fun error =>
       modify (add_toast
                 (toast_error (lit "Sign out failed: " ++ message_of error))));;
  modify (set_loading false).

(** The click handler of the "Refresh model list" button. *)
Definition refreshClicked : Action unit :=
  refreshModels window;;
  refreshGlobalModels window baseModels.

(** The component with the variables of the custom-model editor. *)
Record Panel := {
  component : State;
  showCustomModels : bool;
  editingModelIndex : option nat;
  editingEndpoint : jsstring
}.

(** A panel that has just been created around a component. *)
Definition opened (st : State) : Panel :=
  {| component := st; showCustomModels := false;
     editingModelIndex := None; editingEndpoint := [] |}.

(** [() => showCustomModels = !showCustomModels] *)
Definition toggleCustomModels (p : Panel) : Panel :=
  {| component := component p;
     showCustomModels := negb (showCustomModels p);
     editingModelIndex := editingModelIndex p;
     editingEndpoint := editingEndpoint p |}.

(** [customModels[index]] is [undefined] out of range, and reading its
    [endpoint] throws, after [editingModelIndex] has been written. *)
Definition startEditEndpoint (index : nat) (p : Panel)
  : Panel * Completion unit :=
  match customModels (component p) !! index with
  | Some m =>
      ({| component := component p;
          showCustomModels := showCustomModels p;
          editingModelIndex := Some index;
          editingEndpoint := opt_or_else (cm_endpoint m) [] |},
       Returns tt)
  | None =>
      ({| component := component p;
          showCustomModels := showCustomModels p;
          editingModelIndex := Some index;
          editingEndpoint := editingEndpoint p |},
       Throws TypeError)
  end.

(** The entry is updated in place, then the array is copied. The settings
    store may hold the same entry object; [saveCustomModels] rewrites its
    array from [customModels] before the handler returns, so the store is
    written once here. Out of range the assignment throws and nothing else
    runs. *)
Definition saveEndpoint (index : nat) (p : Panel)
  : Panel * Completion unit :=
  match customModels (component p) !! index with
  | Some m =>
      let edited :=
        {| cm_id := cm_id m;
           cm_endpoint := or_undefined (trim (editingEndpoint p)) |} in
      let st :=
        set_customModels (<[index := edited]> (customModels (component p)))
          (component p) in
      let saved :=
        (saveCustomModels;;
         modify (add_toast (toast_success (t (lit "Endpoint updated")))))
          st in
      ({| component := fst saved;
          showCustomModels := showCustomModels p;
          editingModelIndex := None;
          editingEndpoint := [] |},
       snd saved)
  | None => (p, Throws TypeError)
  end.

Definition cancelEditEndpoint (p : Panel) : Panel :=
  {| component := component p;
     showCustomModels := showCustomModels p;
     editingModelIndex := None;
     editingEndpoint := [] |}.

(** What the "Available Models" block shows: the first ten labels, and the
    rest behind a tooltip ([slice(0, 10)] and [slice(10)]). *)
Definition shownModels (st : State) : list jsstring :=
  take 10 (availableModels st).

Definition hiddenModels (st : State) : list jsstring :=
  drop 10 (availableModels st).

End Handlers.

End PuterPanel.

(* ===================================================================== *)
(** ** [chat] of [index.ts] with callbacks that may throw or abort *)
(* ===================================================================== *)

Module PuterCallbacks.

Import PuterAPI.

(** A value that a callback throws: an [Error], or another value, given
    by what [String(value)] makes of it ([None] when that conversion
    throws itself). *)
Inductive Raised :=
| RaisedError (e : JsError)
| RaisedValue (printed : option jsstring).

(** One call of a callback: whether it calls [abort()] on the controller
    of the [chat] while it runs, and what it throws, if it throws. *)
Record Call := {
  callsAbort : bool;
  raises : option Raised
}.

(** The three callbacks of a [chat] call. Each is given by what a call of
    it does, after the events seen so far in this [chat]. [onToken] and
    [onComplete] are called inside the [try] block, so what they throw
    reaches the [catch]; [onError] is called inside the [catch], and what
    it throws only rejects the inner promise, whose rejection
    [chatPromise.catch] drops. *)
Record PuterStreamCallbacks := {
  onToken : list Event -> jsstring -> Call;
  onComplete : list Event -> jsstring -> option Usage -> Call;
  onError : list Event -> JsError -> Call
}.

(** A call that returns and leaves the controller alone. *)
Definition returns : Call := {| callsAbort := false; raises := None |}.

Definition returning : PuterStreamCallbacks :=
  {| onToken := fun _ _ => returns;
     onComplete := fun _ _ _ => returns;
     onError := fun _ _ => returns |}.

(** The state of the [try] block: the events so far, the [aborted] flag of
    the controller's signal, the local [fullText], and the value thrown,
    if any. *)
Record Calling := {
  seen : list Event;
  isAborted : bool;
  text_ : jsstring;
  raised : option Raised
}.

(** An [abort()] shows in the events when it sets the flag of the signal;
    on a signal that is aborted already it does nothing. *)
Definition abortMark (aborts wasAborted : bool) : list Event :=
  if aborts && negb wasAborted then [Aborted] else [].

(** The [for await] loop, from its [i]-th [next()] on, after the events
    [evs]. *)
Fixpoint forAwaitCalling (callbacks : PuterStreamCallbacks)
    (cancel : CancelPoint) (i : nat)
    (chunks : list PuterStreamChunk) (ending : StreamEnd)
    (wasAborted : bool) (fullText : jsstring) (evs : list Event) : Calling :=
  let abortNow := abortsAt cancel i in
  let evs := evs ++ abortMark abortNow wasAborted in
  let wasAborted := wasAborted || abortNow in
  match chunks with
  | [] =>
      {| seen := evs; isAborted := wasAborted; text_ := fullText;
         raised := match ending with
                   | Exhausted => None
                   | Fails e => Some (RaisedError e)
                   end |}
  | chunk :: rest =>
      if wasAborted then
        (* break *)
        {| seen := evs; isAborted := wasAborted; text_ := fullText;
           raised := None |}
      else
        match text chunk with
        | Some t =>
            if truthy t then
              let c := onToken callbacks evs t in
              let evs := evs ++ OnToken t :: abortMark (callsAbort c) wasAborted in
              let wasAborted := wasAborted || callsAbort c in
              match raises c with
              | None =>
                  forAwaitCalling callbacks cancel (S i) rest ending
                    wasAborted (fullText ++ t) evs
              | Some v =>
                  {| seen := evs; isAborted := wasAborted;
                     text_ := fullText ++ t; raised := Some v |}
              end
            else
              forAwaitCalling callbacks cancel (S i) rest ending
                wasAborted fullText evs
        | None =>
            forAwaitCalling callbacks cancel (S i) rest ending
              wasAborted fullText evs
        end
  end.

(** [callbacks.onComplete(fullText, usage)] at the end of a branch of the
    [try] block. *)
Definition complete (callbacks : PuterStreamCallbacks) (evs : list Event)
    (wasAborted : bool) (fullText : jsstring) (usage_ : option Usage)
  : Calling :=
  let c := onComplete callbacks evs fullText usage_ in
  {| seen := evs ++ OnComplete fullText usage_
                    :: abortMark (callsAbort c) wasAborted;
     isAborted := wasAborted || callsAbort c;
     text_ := fullText;
     raised := raises c |}.

(** The [try] block, once [puter.ai.chat] has settled. *)
Definition chatTryCalling (callbacks : PuterStreamCallbacks)
    (settled : Completion RawResponse) (cancel : CancelPoint)
    (wasAborted : bool) (evs : list Event) : Calling :=
  match settled with
  | Throws e =>
      {| seen := evs; isAborted := wasAborted; text_ := [];
         raised := Some (RaisedError e) |}
  | Returns (ErrorPayload errorResponse) =>
      {| seen := evs; isAborted := wasAborted; text_ := [];
         raised := Some (RaisedError (Error (errorMessage errorResponse))) |}
  | Returns (AsyncIterable chunks ending) =>
      let r := forAwaitCalling callbacks cancel 0 chunks ending wasAborted
                 [] evs in
      match raised r with
      | Some _ => r
      | None => complete callbacks (seen r) (isAborted r) (text_ r) None
      end
  | Returns (ChatResponse result) =>
      let fullText := message_content result in
      let c := onToken callbacks evs fullText in
      let evs := evs ++ OnToken fullText :: abortMark (callsAbort c) wasAborted in
      let wasAborted := wasAborted || callsAbort c in
      match raises c with
      | None => complete callbacks evs wasAborted fullText (usage result)
      | Some v =>
          {| seen := evs; isAborted := wasAborted; text_ := fullText;
             raised := Some v |}
      end
  end.

(** [error instanceof Error ? error : new Error(String(error))]; [None]
    when [String(error)] throws. *)
Definition toError (v : Raised) : option JsError :=
  match v with
  | RaisedError e => Some e
  | RaisedValue (Some printed) => Some (Error printed)
  | RaisedValue None => None
  end.

(** The [catch] block. What is thrown inside it, by [String(error)] or by
    [onError], rejects the inner promise and is dropped. *)
Definition chatCatch (callbacks : PuterStreamCallbacks) (r : Calling)
  : list Event :=
  match raised r with
  | None => seen r
  | Some v =>
      if isAborted r then seen r
      else
        match toError v with
        | Some e =>
            seen r ++ OnError e
                      :: abortMark (callsAbort (onError callbacks (seen r) e))
                           false
        | None => seen r
        end
  end.

(** [chat] with its callbacks: the events of the call, or the error it
    throws before any callback can run. *)
Definition chatCalling (callbacks : PuterStreamCallbacks) (w : Window)
    (messages : list PuterChatMessage) (options : PuterChatOptions)
    (cancel : CancelPoint) : Completion (list Event) :=
  puter ← getPuter w;
  let abortNow := match cancel with DuringCall => true | _ => false end in
  let r := chatTryCalling callbacks
             (ai_chat (ai puter) messages (withStream options true))
             cancel abortNow (abortMark abortNow false) in
  Returns (chatCatch callbacks r).

End PuterCallbacks.

(* ===================================================================== *)
(** ** Handlers of [PuterConnection.svelte] whose awaited calls may reject *)
(* ===================================================================== *)

Module PuterAwaits.

Import PuterAPI PuterConnection PuterPanel.

(** A value that is thrown, or that a promise is rejected with: an error
    object (whose [message] can be read), [null] or [undefined] (reading
    [message] of it throws a [TypeError]), or another value, given by
    what a template literal prints for its [message] (["undefined"] for a
    value that has none). *)
Inductive Thrown :=
| ThrownError (e : JsError)
| ThrownNullish
| ThrownOther (printedMessage : jsstring).

(** How an awaited promise settles. *)
Inductive Settled (A : Type) :=
| Resolves (a : A)
| Rejects (v : Thrown).
Arguments Resolves {A} a.
Arguments Rejects {A} v.

Definition settle {A} (c : Completion A) : Settled A :=
  match c with
  | Returns a => Resolves a
  | Throws e => Rejects (ThrownError e)
  end.

(** A handler: it reads and writes the state, and resolves or rejects.
    What it wrote before rejecting stays written. *)
Definition Handler (A : Type) : Type := State -> State * Settled A.

Definition handler_ret {A} (a : A) : Handler A := fun st => (st, Resolves a).

Definition handler_bind {A B} (k : A -> Handler B) (h : Handler A)
  : Handler B :=
  fun st =>
    match h st with
    | (st', Resolves x) => k x st'
    | (st', Rejects v) => (st', Rejects v)
    end.

#[global] Instance handler_mret : MRet Handler := @handler_ret.
#[global] Instance handler_mbind : MBind Handler := @handler_bind.

(** [await p] for a promise that settles as [p]. *)
Definition await {A} (p : Settled A) : Handler A := fun st => (st, p).

(** The steps that await no collaborator, as in [PuterConnection]. *)
Definition run {A} (a : Action A) : Handler A :=
  fun st => (fst (a st), settle (snd (a st))).

(** [try { h } catch (error) { c error }] *)
Definition handler_try {A} (h : Handler A) (c : Thrown -> Handler A)
  : Handler A :=
  fun st =>
    match h st with
    | (st', Resolves x) => (st', Resolves x)
    | (st', Rejects v) => c v st'
    end.

Section Handlers.

Variable window : Window.
(** What [_getModels(...)] settles to. *)
Variable getModels : Settled (list GlobalModel).
(** What [updateUserSettings(token, { ui })] settles to. *)
Variable updateUserSettings : Settings -> Settled unit.
(** What [puter.auth.signIn()] and [puter.auth.signOut()] settle to. *)
Variable authSignIn : Settled bool.
Variable authSignOut : Settled unit.
Variable t : jsstring -> jsstring.
Variable typeErrorMessage : jsstring.

(** [PuterAPI.signIn()]: its [catch] throws again what it caught. *)
Definition signIn : Handler bool :=
  run (call (getPuter window));;
  handler_try (await authSignIn) (fun error => await (Rejects error)).

(** [PuterAPI.signOut()] *)
Definition signOut : Handler unit :=
  run (call (getPuter window));;
  await authSignOut.

(** [`${error.message}`] in a [catch] block. *)
Definition messageText (error : Thrown) : Handler jsstring :=
  match error with
  | ThrownError e => handler_ret (message_of typeErrorMessage e)
  | ThrownNullish => await (Rejects (ThrownError TypeError))
  | ThrownOther printedMessage => handler_ret printedMessage
  end.

Definition refreshGlobalModels : Handler unit :=
  allModels ← await getModels;
  enabled ← run (gets puterEnabled);
  custom ← run (gets customModels);
  let allModels :=
    if enabled && isPuterAvailable window then
      let puterModels := getModelsWithCustom custom in
      if (0 <? length puterModels)%nat
      then allModels ++ map formatPuterModel puterModels
      else allModels
    else allModels in
  run (modify (set_models allModels)).

(** The tail of [handleToggle]. The call of [updateUserSettings] is on
    record whether it resolves or not. *)
Definition saveEnabled : Handler unit :=
  enabled ← run (gets puterEnabled);
  run (modify (fun st =>
                 set_settings
                   {| s_puterEnabled := Some enabled;
                      s_puterCustomModels := s_puterCustomModels (settings st) |}
                   st));;
  s ← run (gets settings);
  run (modify (add_userSettingsUpdate s));;
  await (updateUserSettings s);;
  enabled ← run (gets puterEnabled);
  run (modify (add_changeEvent enabled)).

Definition handleToggle : Handler unit :=
  enabled ← run (gets puterEnabled);
  if (enabled : bool) then
    (* Enabling Puter *)
    if isPuterAvailable window then
      signedIn ← run (call (isSignedIn window));
      (if (signedIn : bool) then
         run (modify (set_puterSignedIn true));;
         u ← run (call (getUser window));
         match u with
         | Some u => run (modify (set_puterUser (Some (username u, email u))))
         | None => handler_ret tt
         end;;
         run (refreshModels window);;
         refreshGlobalModels
       else handler_ret tt);;
      saveEnabled
    else
      run (modify (add_toast (toast_error (t (lit "Puter SDK not available")))));;
      run (modify (set_puterEnabled false))
      (* return *)
  else
    (* Disabling Puter *)
    run (modify (set_availableModels []));;
    refreshGlobalModels;;
    saveEnabled.

Definition handleSignIn : Handler unit :=
  run (modify (set_loading true));;
  handler_try
    (success ← signIn;
     if (success : bool) then
       run (modify (set_puterSignedIn true));;
       u ← run (call (getUser window));
       match u with
       | Some u => run (modify (set_puterUser (Some (username u, email u))))
       | None => handler_ret tt
       end;;
       run (modify (add_toast (toast_success (t (lit "Signed in with Puter")))));;
       run (refreshModels window);;
       refreshGlobalModels
     else handler_ret tt)
    (fun error =>
       message ← messageText error;
       run (modify (add_toast
                      (toast_error (lit "Sign in failed: " ++ message)))));;
  run (modify (set_loading false)).

Definition handleSignOut : Handler unit :=
  run (modify (set_loading true));;
  handler_try
    (signOut;;
     run (modify (set_puterSignedIn false));;
     run (modify (set_puterUser None));;
     run (modify (set_availableModels []));;
     run (modify (add_toast (toast_success (t (lit "Signed out from Puter")))));;
     refreshGlobalModels)
    (fun error =>
       message ← messageText error;
       run (modify (add_toast
                      (toast_error (lit "Sign out failed: " ++ message)))));;
  run (modify (set_loading false)).

End Handlers.

End PuterAwaits.

(* ===================================================================== *)
(** ** Vocabulary of the properties *)
(* ===================================================================== *)

Import PuterAPI PuterConnection.

(** *** Strings *)

Definition blank (c : code_unit) : Prop := isWhiteSpace c = true.

Definition starts_clean (s : jsstring) : Prop :=
  match s with
  | [] => True
  | c :: _ => isWhiteSpace c = false
  end.

Definition ends_clean (s : jsstring) : Prop := starts_clean (reverse s).

(** [p] is the part of [s] before its first [sep]. *)
Definition prefix_before_first (sep : code_unit) (s p : jsstring) : Prop :=
  (sep ∉ p) ∧ (∃ rest, s = p ++ sep :: rest).

(** *** The merged catalog *)

Definition curated_ids : list jsstring := map id CURATED_PUTER_MODELS.

(** A custom entry that the merged list keeps. *)
Definition kept (m : PuterCustomModel) : Prop :=
  trim (cm_id m) ≠ [] ∧ trim (cm_id m) ∉ curated_ids.

#[local] Instance kept_dec (m : PuterCustomModel) : Decision (kept m) :=
  and_dec _ _.

(** [out] is the entry of the merged list that stands for the custom entry
    [m]. The provider is read off the id as [m] stores it. *)
Definition merged_from (m : PuterCustomModel) (out : PuterModel) : Prop :=
  id out = trim (cm_id m)
  ∧ name out = Some (trim (cm_id m))
  ∧ (colon ∈ cm_id m →
     ∃ p, provider out = Some p ∧ prefix_before_first colon (cm_id m) p)
  ∧ (colon ∉ cm_id m → provider out = Some (lit "custom"))
  ∧ match cm_endpoint m with
    | None => endpoint out = None
    | Some e =>
        (trim e = [] → endpoint out = None)
        ∧ (trim e ≠ [] → endpoint out = Some (trim e))
    end.

(** [g] is the global entry made from the catalog entry [m]. *)
Definition provider_entry (m : PuterModel) (g : GlobalModel) : Prop :=
  g_id g = lit "puter/" ++ id m
  ∧ (∃ n, name m = Some n ∧ g_name g = lit "Puter: " ++ n)
  ∧ external g = true
  ∧ puter g = true.

(** *** Traces of [chat] *)

(** The token a chunk carries: its [text], when present and non-empty. *)
Definition token_of (chunk : PuterStreamChunk) : option jsstring :=
  text chunk ≫= or_undefined.

Definition tokens (chunks : list PuterStreamChunk) : list jsstring :=
  omap token_of chunks.

(** The tokens handed to [onToken] in a sequence of events. *)
Definition delivered (evs : list Event) : list jsstring :=
  omap (λ ev, match ev with OnToken tok => Some tok | _ => None end) evs.

(** The events before, and after, the caller's [abort()]. *)
Fixpoint before_abort (evs : list Event) : list Event :=
  match evs with
  | [] => []
  | Aborted :: _ => []
  | ev :: rest => ev :: before_abort rest
  end.

Fixpoint after_abort (evs : list Event) : list Event :=
  match evs with
  | [] => []
  | Aborted :: rest => rest
  | _ :: rest => after_abort rest
  end.

Definition end_error (ending : StreamEnd) : option JsError :=
  match ending with
  | Exhausted => None
  | Fails e => Some e
  end.

(** *** Concrete inputs *)

Module Samples.

Definition ada : PuterUser :=
  {| uuid := lit "0001"; username := lit "ada"; email := None;
     email_confirmed := None |}.

(** An SDK whose [ai.chat] settles as [raw], for a user who is signed in
    or not. *)
Definition sdk (signedIn : bool) (raw : Completion RawResponse) : Puter :=
  {| auth := {| auth_signIn := Returns true;
                auth_signOut := Returns tt;
                auth_isSignedIn := signedIn;
                auth_getUser := Returns ada |};
     ai := {| ai_chat := λ _ _, raw;
              ai_listModels := Returns [] |} |}.

(** An SDK that says the user is signed in, but fails to fetch them. *)
Definition sdk_user_fetch_fails : Puter :=
  {| auth := {| auth_signIn := Returns true;
                auth_signOut := Returns tt;
                auth_isSignedIn := true;
                auth_getUser := Throws (Error (lit "network")) |};
     ai := {| ai_chat := λ _ _, Throws (Error (lit "network"));
              ai_listModels := Returns [] |} |}.

Definition no_options : PuterChatOptions :=
  {| model := None; temperature := None; max_tokens := None;
     stream := None |}.

Definition chunk (s : string) : PuterStreamChunk := {| text := Some (lit s) |}.

Definition stream_ab : RawResponse :=
  AsyncIterable [chunk "a"; chunk "b"] Exhausted.

Definition error_payload : RawResponse :=
  ErrorPayload
    {| error := Some {| err_message := None;
                        err_code := Some (lit "rate_limited") |} |}.

Definition whole_reply : RawResponse :=
  ChatResponse {| message_content := lit "  A short title  "; usage := None |}.

Definition no_settings : Settings :=
  {| s_puterEnabled := None; s_puterCustomModels := None |}.

(** A panel with the provider switched on or off, a custom list, and an
    id typed into the input. *)
Definition panel (enabled : bool) (custom : list CustomModel)
    (typed : string) : State :=
  set_newCustomModelId (lit typed)
    (set_customModels custom (created enabled false None [] no_settings)).

Definition custom (i : string) : CustomModel :=
  {| cm_id := lit i; cm_endpoint := None |}.

Definition other_model : GlobalModel :=
  {| g_id := lit "llama3"; g_name := lit "Llama 3"; owned_by := lit "ollama";
     external := false; puter := false |}.

Definition same (s : jsstring) : jsstring := s.

End Samples.

(** *** Vocabulary of the further properties *)

Import PuterPanel.

(** The callback calls of a trace, without the mark of the [abort()]. *)
Fixpoint callbacks (evs : list Event) : list Event :=
  match evs with
  | [] => []
  | Aborted :: rest => callbacks rest
  | ev :: rest => ev :: callbacks rest
  end.

(** A field of an error payload that is there and not empty; one that is
    missing or empty. *)
Definition filled (field : option jsstring) (s : jsstring) : Prop :=
  field = Some s ∧ s ≠ [].

Definition unfilled (field : option jsstring) : Prop :=
  field = None ∨ field = Some [].

(** An id, and an endpoint, in the form the panel stores them: the id
    non-empty with no blank at either end, the endpoint absent or such a
    string. *)
Definition tidy_id (s : jsstring) : Prop := s ≠ [] ∧ trim s = s.

Definition tidy_endpoint (e : option jsstring) : Prop :=
  match e with
  | None => True
  | Some s => tidy_id s
  end.

(** A custom list whose ids are tidy and pairwise distinct, and whose
    endpoints are tidy. *)
Definition tidy (cs : list CustomModel) : Prop :=
  NoDup (map cm_id cs)
  ∧ Forall (λ m, tidy_id (cm_id m) ∧ tidy_endpoint (cm_endpoint m)) cs.

(** The settings store holds the custom list of the component, and it is
    what the settings collaborator was last given. *)
Definition synced (st : State) : Prop :=
  s_puterCustomModels (settings st) = Some (map StoredObject (customModels st))
  ∧ last (userSettingsUpdates st) = Some (settings st).

(** The global entry for the catalog model with id [i] and name [n]. *)
Definition global_entry (i n : jsstring) : GlobalModel :=
  {| g_id := lit "puter/" ++ i;
     g_name := lit "Puter: " ++ n;
     owned_by := lit "puter";
     external := true;
     puter := true |}.

(** The global entries that stand for a merged catalog. *)
Definition global_entries (ms : list PuterModel) : list GlobalModel :=
  map (λ m, global_entry (id m) (default (id m) (name m))) ms.

(** The id under which a stored element will be known after loading. *)
Definition stored_id (m : StoredCustomModel) : jsstring :=
  match m with
  | LegacyString s => s
  | StoredObject o => cm_id o
  end.

Module MoreSamples.

Definition failing_stream : RawResponse :=
  AsyncIterable [Samples.chunk "a"; {| text := None |}; Samples.chunk "b"]
    (Fails (Error (lit "connection lost"))).

(** An SDK whose sign-in and sign-out are rejected. *)
Definition sdk_auth_fails : Puter :=
  {| auth := {| auth_signIn := Throws (Error (lit "popup closed"));
                auth_signOut := Throws (Error (lit "offline"));
                auth_isSignedIn := false;
                auth_getUser := Throws (Error (lit "offline")) |};
     ai := {| ai_chat := λ _ _, Throws (Error (lit "offline"));
              ai_listModels := Throws (Error (lit "offline")) |} |}.

(** An SDK whose sign-in resolves to [false]. *)
Definition sdk_declines : Puter :=
  {| auth := {| auth_signIn := Returns false;
                auth_signOut := Returns tt;
                auth_isSignedIn := false;
                auth_getUser := Returns Samples.ada |};
     ai := {| ai_chat := λ _ _, Throws (Error (lit "offline"));
              ai_listModels := Returns [] |} |}.

Definition with_endpoint (i e : string) : CustomModel :=
  {| cm_id := lit i; cm_endpoint := Some (lit e) |}.

(** A panel that shows two custom models, the first with an endpoint. *)
Definition two_models : State :=
  Samples.panel true
    [with_endpoint "acme:m1" "https://acme.example/v1"; Samples.custom "m2"] "".

End MoreSamples.

Module CallbackSamples.

Import PuterCallbacks.



End CallbackSamples.

Module AwaitSamples.

Import PuterAwaits.

Definition server_error : Thrown := ThrownError (Error (lit "HTTP 500")).

Definition saved (_ : Settings) : Settled unit := Resolves tt.

Definition not_saved (_ : Settings) : Settled unit := Rejects server_error.

End AwaitSamples.

(* ===================================================================== *)
(** ** Facts about the string operations *)
(* ===================================================================== *)

Section StringFacts.

Lemma truthy_true (s : jsstring) : truthy s = true ↔ s ≠ [].
Proof. destruct s; simpl; split; congruence. Qed.

Lemma truthy_false (s : jsstring) : truthy s = false ↔ s = [].
Proof. destruct s; simpl; split; congruence. Qed.

Lemma includes_true sep (s : jsstring) : includes sep s = true ↔ sep ∈ s.
Proof.
  unfold includes. rewrite existsb_exists. split.
  - intros (x & Hx & Heq). apply N.eqb_eq in Heq. subst.
    by apply list_elem_of_In.
  - intros H. exists sep. split; [by apply list_elem_of_In | apply N.eqb_refl].
Qed.

Lemma includes_false sep (s : jsstring) : includes sep s = false ↔ sep ∉ s.
Proof.
  rewrite <- includes_true. destruct (includes sep s); split; congruence.
Qed.

Lemma split_nonempty sep s : split sep s ≠ [].
Proof.
  destruct s as [|c s]; simpl; [done|].
  destruct (c =? sep); [done|]. destruct (split sep s); done.
Qed.

Lemma first_split_cons sep c s :
  first (split sep (c :: s)) = if c =? sep then [] else c :: first (split sep s).
Proof.
  simpl. destruct (c =? sep); [done|].
  pose proof (split_nonempty sep s). destruct (split sep s); done.
Qed.

Lemma first_split_no_sep sep s : sep ∉ first (split sep s).
Proof.
  induction s as [|c s IH].
  - simpl. apply not_elem_of_nil.
  - rewrite first_split_cons. destruct (c =? sep) eqn:E.
    + apply not_elem_of_nil.
    + apply N.eqb_neq in E. rewrite not_elem_of_cons. split; [congruence | done].
Qed.

Lemma first_split_prefix sep s :
  sep ∈ s → ∃ rest, s = first (split sep s) ++ sep :: rest.
Proof.
  induction s as [|c s IH]; intros Hin.
  - by apply elem_of_nil in Hin.
  - rewrite first_split_cons. destruct (c =? sep) eqn:E.
    + apply N.eqb_eq in E. subst. by exists s.
    + apply N.eqb_neq in E. apply elem_of_cons in Hin as [->|Hin]; [done|].
      destruct (IH Hin) as [rest Hrest]. exists rest. simpl. by rewrite <- Hrest.
Qed.

Lemma first_split_whole sep s : sep ∉ s → first (split sep s) = s.
Proof.
  induction s as [|c s IH]; intros Hn; [done|].
  rewrite first_split_cons. apply not_elem_of_cons in Hn as [Hc Hs].
  destruct (c =? sep) eqn:E.
  - apply N.eqb_eq in E. congruence.
  - by rewrite IH.
Qed.

Lemma trimStart_clean s : starts_clean (trimStart s).
Proof.
  induction s as [|c s IH]; simpl; [done|].
  destruct (isWhiteSpace c) eqn:E; [done | exact E].
Qed.

Lemma trimStart_fixed s : starts_clean s → trimStart s = s.
Proof. destruct s as [|c s]; simpl; [done|]. by intros ->. Qed.

Lemma trimStart_split s : ∃ l, s = l ++ trimStart s ∧ Forall blank l.
Proof.
  induction s as [|c s (l & Hl & Hb)]; simpl.
  - by exists [].
  - destruct (isWhiteSpace c) eqn:E.
    + exists (c :: l). split; [simpl; congruence | by constructor].
    + by exists [].
Qed.

(** Stripping the front leaves the last code unit in place. *)
Lemma trimStart_last s : trimStart s ≠ [] → last (trimStart s) = last s.
Proof.
  induction s as [|c s IH]; simpl; [done|].
  destruct (isWhiteSpace c) eqn:E; [|done].
  intros Hne. rewrite (IH Hne). destruct s; [done|]. done.
Qed.

Lemma starts_clean_head (s : jsstring) :
  starts_clean s ↔ ∀ c, head s = Some c → isWhiteSpace c = false.
Proof.
  destruct s as [|c s]; simpl; split; try done.
  - intros H c' [= <-]. done.
  - intros H. by apply H.
Qed.

Lemma trim_split s :
  ∃ l r, s = l ++ trim s ++ r ∧ Forall blank l ∧ Forall blank r.
Proof.
  unfold trim, trimEnd.
  destruct (trimStart_split s) as (l & Hl & Hbl).
  destruct (trimStart_split (reverse (trimStart s))) as (r & Hr & Hbr).
  exists l, (reverse r). split; [|split; [done|]].
  - rewrite <- reverse_app, <- Hr, reverse_involutive. exact Hl.
  - rewrite Forall_forall in *. intros c Hc. apply Hbr.
    by apply elem_of_reverse.
Qed.

Lemma trim_ends_clean s : ends_clean (trim s).
Proof.
  unfold ends_clean, trim, trimEnd. rewrite reverse_involutive.
  apply trimStart_clean.
Qed.

Lemma trim_starts_clean s : starts_clean (trim s).
Proof.
  unfold trim, trimEnd.
  pose proof (trimStart_clean s) as Hc.
  set (t := trimStart s) in *.
  destruct (trimStart (reverse t)) as [|c u] eqn:E; [done|].
  assert (Hne : trimStart (reverse t) ≠ []) by (rewrite E; done).
  pose proof (trimStart_last _ Hne) as Hlast.
  rewrite last_reverse in Hlast. rewrite E in Hlast.
  apply starts_clean_head. intros c' Hc'.
  rewrite head_reverse in Hc'. 
  rewrite Hc' in Hlast. symmetry in Hlast.
  revert Hc. rewrite starts_clean_head. intros Hc. by apply Hc.
Qed.

Lemma trim_fixed s : starts_clean s → ends_clean s → trim s = s.
Proof.
  intros Hs He. unfold trim, trimEnd.
  rewrite (trimStart_fixed s Hs), (trimStart_fixed (reverse s) He).
  apply reverse_involutive.
Qed.

Lemma trim_idempotent s : trim (trim s) = trim s.
Proof. apply trim_fixed; [apply trim_starts_clean | apply trim_ends_clean]. Qed.

(** [trim] removes blanks at both ends and nothing else. *)
Lemma trim_spec s :
  (∃ l r, s = l ++ trim s ++ r ∧ Forall blank l ∧ Forall blank r)
  ∧ starts_clean (trim s) ∧ ends_clean (trim s).
Proof.
  split; [apply trim_split|]. split; [apply trim_starts_clean | apply trim_ends_clean].
Qed.

End StringFacts.

(* ===================================================================== *)
(** ** The merged catalog *)
(* ===================================================================== *)

Section Catalog.

Lemma List_filter_decide {A} (b : A → bool) (P : A → Prop)
    `{∀ x, Decision (P x)} (l : list A) :
  (∀ x, b x = true ↔ P x) → List.filter b l = filter P l.
Proof.
  intros Hb. induction l as [|x l IH]; [done|].
  simpl. rewrite filter_cons. destruct (decide (P x)) as [HP|HP].
  - apply Hb in HP. rewrite HP. by rewrite IH.
  - destruct (b x) eqn:E; [by apply Hb in E | done].
Qed.

Lemma trimmedEndpoint_spec e :
  match e with
  | None => trimmedEndpoint e = None
  | Some s => (trim s = [] → trimmedEndpoint e = None)
              ∧ (trim s ≠ [] → trimmedEndpoint e = Some (trim s))
  end.
Proof.
  destruct e as [s|]; [|done]. unfold trimmedEndpoint; simpl.
  unfold or_undefined. destruct (trim s); simpl; split; done.
Qed.

(** C5: for every custom-model list, the merged list is the curated
    catalog, in its order, followed by one entry for each custom entry whose
    trimmed id is non-empty and is not a curated id, in the order of the
    custom list. The entry's id is the trimmed id; its provider is the part
    of the custom entry's id before the first [':'] when that id contains
    one, and ["custom"] otherwise; its endpoint is the trimmed endpoint, and
    is absent when the endpoint is missing or trims to the empty string. *)
Theorem getModelsWithCustom_merged (customModels : list PuterCustomModel) :
  ∃ custom,
    getModelsWithCustom customModels = CURATED_PUTER_MODELS ++ custom
    ∧ Forall2 merged_from (filter kept customModels) custom.
Proof.
  unfold getModelsWithCustom, getCuratedModels.
  eexists. split; [reflexivity|].
  rewrite (List_filter_decide _ kept).
  2:{ intros m. unfold kept, curated_ids.
      rewrite !andb_true_iff, negb_true_iff, bool_decide_eq_false.
      rewrite elem_of_list_to_set, !truthy_true. split; [tauto|].
      intros [Hne Hnin]. repeat split; try done.
      intros Heq. rewrite Heq in Hne. by vm_compute in Hne. }
  induction (filter kept customModels) as [|m l IH]; simpl; constructor; [|done].
  unfold merged_from; simpl. repeat split.
  - intros Hin. eexists. split; [|split].
    + apply includes_true in Hin. by rewrite Hin.
    + apply first_split_no_sep.
    + by apply first_split_prefix.
  - intros Hnin. apply includes_false in Hnin. by rewrite Hnin.
  - apply trimmedEndpoint_spec.
Qed.

(** The spec's scenario: an id with a provider prefix and no endpoint. *)
Example merged_openrouter :
  last (getModelsWithCustom
          [Samples.custom "openrouter:meta-llama/llama-3.1-8b-instruct"])
  = Some {| id := lit "openrouter:meta-llama/llama-3.1-8b-instruct";
            name := Some (lit "openrouter:meta-llama/llama-3.1-8b-instruct");
            provider := Some (lit "openrouter");
            endpoint := None |}.
Proof. vm_compute. reflexivity. Qed.

(** The provider is cut from the id as stored, blanks included. *)
Example merged_untrimmed_id :
  last (getModelsWithCustom [Samples.custom " acme:m1"])
  = Some {| id := lit "acme:m1"; name := Some (lit "acme:m1");
            provider := Some (lit " acme"); endpoint := None |}.
Proof. vm_compute. reflexivity. Qed.

(** When the stored ids are trimmed, as the ids that [addCustomModel]
    stores are, the provider is also the part before the first [':'] of the
    id that the merged entry shows. *)
Lemma merged_provider_of_trimmed_ids (customModels : list PuterCustomModel) :
  Forall (λ m, trim (cm_id m) = cm_id m) customModels →
  Forall (λ out,
            (colon ∈ id out →
             ∃ p, provider out = Some p ∧ prefix_before_first colon (id out) p)
            ∧ (colon ∉ id out → provider out = Some (lit "custom")))
    (drop (length CURATED_PUTER_MODELS) (getModelsWithCustom customModels)).
Proof.
  intros Htrimmed. unfold getModelsWithCustom, getCuratedModels.
  rewrite drop_app_length.
  induction Htrimmed as [|m l Hm _ IH]; [constructor|].
  cbn [List.filter].
  destruct (truthy (cm_id m) && truthy (trim (cm_id m))
            && negb (bool_decide (trim (cm_id m) ∈
                 (list_to_set (map id CURATED_PUTER_MODELS) : gset jsstring))));
    [|exact IH].
  cbn [map]. constructor; [|exact IH]. cbn [id provider]. rewrite Hm. split.
  - intros Hin. eexists. split; [|split].
    + apply includes_true in Hin. by rewrite Hin.
    + apply first_split_no_sep.
    + by apply first_split_prefix.
  - intros Hnin. apply includes_false in Hnin. by rewrite Hnin.
Qed.

End Catalog.

(* ===================================================================== *)
(** ** Streaming chat *)
(* ===================================================================== *)

Section Chat.

Lemma delivered_tokens d : delivered (map OnToken d) = d.
Proof.
  induction d as [|t d IH]; [done|].
  unfold delivered in *. simpl in *. by f_equal.
Qed.

Lemma before_abort_tokens d post :
  before_abort (map OnToken d ++ Aborted :: post) = map OnToken d.
Proof. induction d as [|t d IH]; simpl; [done | by rewrite IH]. Qed.



Lemma emit_first_nil r : emit_first [] r = r.
Proof. by destruct r. Qed.

Lemma tokens_cons chunk rest :
  tokens (chunk :: rest) =
    match token_of chunk with
    | Some t => t :: tokens rest
    | None => tokens rest
    end.
Proof. reflexivity. Qed.

(** One turn of the loop that no [abort()] precedes. *)
Lemma forAwait_cons cancel i chunk rest ending txt :
  abortsAt cancel i = false →
  forAwait cancel i (chunk :: rest) ending false txt =
    match token_of chunk with
    | Some t =>
        emit_first [OnToken t]
          (forAwait cancel (S i) rest ending false (txt ++ t))
    | None => forAwait cancel (S i) rest ending false txt
    end.
Proof.
  intros Hno. cbn [forAwait]. rewrite Hno. cbn [orb]. rewrite emit_first_nil.
  unfold token_of. destruct (text chunk) as [t|]; simpl; [|done].
  unfold or_undefined. by destruct (truthy t).
Qed.

(** The loop when nothing aborts it. *)
Lemma forAwait_NotCancelled chunks : ∀ i ending txt,
  forAwait NotCancelled i chunks ending false txt =
    {| emitted := map OnToken (tokens chunks);
       aborted := false;
       fullText := txt ++ concat (tokens chunks);
       thrown := end_error ending |}.
Proof.
  induction chunks as [|chunk rest IH]; intros i ending txt.
  - simpl. unfold emit_first; simpl. rewrite app_nil_r. by destruct ending.
  - rewrite forAwait_cons by done. rewrite tokens_cons.
    destruct (token_of chunk) as [t|]; [|apply IH].
    rewrite IH. unfold emit_first; simpl. by rewrite <- app_assoc.
Qed.






(** C4: for a call that is not cancelled, an error payload gives exactly
    one [onError]; an async iterable that runs to its end gives one
    [onToken] per chunk that carries a token, in order, and then one
    [onComplete] with the concatenation of these tokens; a single complete
    response gives one [onToken] with the whole text and then one
    [onComplete] with the same text. *)
Theorem chat_outcomes puter msgs opts :
  let raw := ai_chat (ai puter) msgs (withStream opts true) in
  (∀ e, raw = Returns (ErrorPayload e) →
        chat (Some puter) msgs opts NotCancelled
          = Returns [OnError (Error (errorMessage e))])
  ∧ (∀ chunks, raw = Returns (AsyncIterable chunks Exhausted) →
        chat (Some puter) msgs opts NotCancelled
          = Returns (map OnToken (tokens chunks)
                     ++ [OnComplete (concat (tokens chunks)) None]))
  ∧ (∀ r, raw = Returns (ChatResponse r) →
        chat (Some puter) msgs opts NotCancelled
          = Returns [OnToken (message_content r);
                     OnComplete (message_content r) (usage r)]).
Proof.
  cbn zeta. unfold chat. cbn [getPuter mbind completion_bind bind].
  split; [|split].
  - intros e ->. reflexivity.
  - intros chunks ->. unfold chatTry. rewrite forAwait_NotCancelled. cbn.
    by rewrite app_nil_r.
  - intros r ->. reflexivity.
Qed.

End Chat.

Lemma chat_outcomes_witness :
  chat (Some (Samples.sdk true (Returns Samples.error_payload))) []
       Samples.no_options NotCancelled
    = Returns [OnError (Error (lit "rate_limited"))]
  ∧ chat (Some (Samples.sdk true (Returns Samples.stream_ab))) []
         Samples.no_options NotCancelled
      = Returns [OnToken (lit "a"); OnToken (lit "b");
                 OnComplete (lit "ab") None]
  ∧ chat (Some (Samples.sdk true (Returns Samples.whole_reply))) []
         Samples.no_options NotCancelled
      = Returns [OnToken (lit "  A short title  ");
                 OnComplete (lit "  A short title  ") None].
Proof.
  split; [|split].
  - apply (proj1 (chat_outcomes
                    (Samples.sdk true (Returns Samples.error_payload))
                    [] Samples.no_options)
             {| error := Some {| err_message := None;
                                 err_code := Some (lit "rate_limited") |} |}).
    reflexivity.
  - apply (proj1 (proj2 (chat_outcomes
                           (Samples.sdk true (Returns Samples.stream_ab))
                           [] Samples.no_options))
             [Samples.chunk "a"; Samples.chunk "b"]).
    reflexivity.
  - apply (proj2 (proj2 (chat_outcomes
                           (Samples.sdk true (Returns Samples.whole_reply))
                           [] Samples.no_options))
             {| message_content := lit "  A short title  "; usage := None |}).
    reflexivity.
Defined.

(* ===================================================================== *)
(** ** The adapter without, and with, the SDK *)
(* ===================================================================== *)

Section Adapter.

Lemma isSignedIn_returns w : ∃ b, isSignedIn w = Returns b.
Proof. destruct w as [puter|]; eexists; reflexivity. Qed.

Lemma getUser_returns w : ∃ u, getUser w = Returns u.
Proof.
  destruct w as [puter|]; [|by exists None].
  unfold getUser, isSignedIn; cbn.
  destruct (auth_isSignedIn (auth puter)); cbn; [|by exists None].
  destruct (auth_getUser (auth puter)) as [u|e]; cbn; eauto.
Qed.

(** C7, amended: with the SDK global absent, the calls that fetch the SDK
    object themselves ([signIn], [signOut], [chat], [chatSync] and
    [listModels]) fail at once with the "not loaded" error, [isSignedIn]
    returns [false], and [getUser] returns [null]; [getUser] never raises:
    it returns [null] whenever [isSignedIn] is false or the SDK's user fetch
    fails. *)
Theorem adapter_without_sdk :
  signIn None = Throws sdkNotLoaded
  ∧ signOut None = Throws sdkNotLoaded
  ∧ (∀ msgs opts cancel, chat None msgs opts cancel = Throws sdkNotLoaded)
  ∧ (∀ msgs opts, chatSync None msgs opts = Throws sdkNotLoaded)
  ∧ listModels None = Throws sdkNotLoaded
  ∧ isSignedIn None = Returns false
  ∧ getUser None = Returns None
  ∧ (∀ w, isSignedIn w = Returns false → getUser w = Returns None)
  ∧ (∀ puter e, auth_getUser (auth puter) = Throws e →
                getUser (Some puter) = Returns None)
  ∧ (∀ w, ∃ u, getUser w = Returns u).
Proof.
  repeat split; try reflexivity.
  - intros w Hout. unfold getUser. rewrite Hout. reflexivity.
  - intros puter e Hfail. unfold getUser, isSignedIn; cbn.
    destruct (auth_isSignedIn (auth puter)); cbn; [|reflexivity].
    rewrite Hfail. reflexivity.
  - apply getUser_returns.
Qed.

Lemma adapter_without_sdk_witness :
  getUser (Some (Samples.sdk false (Returns Samples.whole_reply))) = Returns None
  ∧ getUser (Some Samples.sdk_user_fetch_fails) = Returns None.
Proof.
  destruct adapter_without_sdk as (_ & _ & _ & _ & _ & _ & _ & Hout & Hfail & _).
  split.
  - apply Hout. reflexivity.
  - apply (Hfail Samples.sdk_user_fetch_fails (Error (lit "network"))).
    reflexivity.
Defined.

(** C7 as the spec words it fails: [getUser] is an adapter call other than
    [isSignedIn], and with the SDK absent it returns [null], no error. *)
Lemma getUser_without_sdk_returns :
  getUser None = Returns None ∧ ¬ (∃ e, getUser None = Throws e).
Proof. split; [reflexivity|]. intros [e He]. discriminate He. Qed.

(** C10: [generateTitle] always returns a string, of at most 100 code
    units: ["New Chat"] when the non-streaming chat call raises, and
    otherwise the text of the response, trimmed and cut after its first 100
    code units. *)
Theorem generateTitle_total w userMessage assistantMessage :
  ∃ title,
    generateTitle w userMessage assistantMessage = Returns title
    ∧ (length title ≤ 100)%nat
    ∧ (∀ e, chatSync w (titleMessages userMessage assistantMessage)
              titleOptions = Throws e →
            title = lit "New Chat")
    ∧ (∀ r, chatSync w (titleMessages userMessage assistantMessage)
              titleOptions = Returns r →
            title = take 100 (trim (cr_text r))).
Proof.
  unfold generateTitle.
  destruct (chatSync w (titleMessages userMessage assistantMessage) titleOptions)
    as [r|e]; cbn [mbind completion_bind bind try_catch mret completion_ret].
  - exists (slice0 100 (trim (cr_text r))). unfold slice0.
    split; [reflexivity|]. split; [rewrite length_take; lia|].
    split; [discriminate | congruence].
  - exists (lit "New Chat").
    split; [reflexivity|]. split; [vm_compute; lia|].
    split; [reflexivity | discriminate].
Qed.

Lemma generateTitle_total_witness :
  generateTitle None (lit "hello") (lit "hi") = Returns (lit "New Chat")
  ∧ generateTitle (Some (Samples.sdk true (Returns Samples.whole_reply)))
      (lit "hello") (lit "hi") = Returns (lit "A short title").
Proof.
  split.
  - destruct (generateTitle_total None (lit "hello") (lit "hi"))
      as (title & Hrun & _ & Hfail & _).
    rewrite Hrun. f_equal. apply (Hfail sdkNotLoaded). reflexivity.
  - destruct (generateTitle_total
                (Some (Samples.sdk true (Returns Samples.whole_reply)))
                (lit "hello") (lit "hi"))
      as (title & Hrun & _ & _ & Hok).
    rewrite Hrun. f_equal.
    apply (Hok {| cr_text := lit "  A short title  "; cr_usage := None |}).
    reflexivity.
Defined.

End Adapter.

(* ===================================================================== *)
(** ** The settings panel controller *)
(* ===================================================================== *)

Ltac run_action :=
unfold exec, mbind, mret, action_bind, action_ret, act_bind, act_ret,
  gets, modify, call, skip;
cbn beta iota zeta delta [fst snd].

Section Controller.

Variable window : Window.
Variable baseModels : list GlobalModel.
Variable tr : jsstring → jsstring.

Lemma refreshGlobalModels_run st :
  refreshGlobalModels window baseModels st =
    (set_models
       (if puterEnabled st && isPuterAvailable window then
          if (0 <? length (getModelsWithCustom (customModels st)))%nat
          then baseModels ++ map formatPuterModel (getModelsWithCustom (customModels st))
          else baseModels
        else baseModels) st, Returns tt).
Proof. reflexivity. Qed.

(** C2: with the provider switched off, rebuilding the global model list
    stores the base list as it is, whatever the custom list, the sign-in
    state and the SDK are; so no entry tagged [puter] appears unless the
    base list already had one. *)
Theorem refreshGlobalModels_disabled st :
  puterEnabled st = false →
  models (exec (refreshGlobalModels window baseModels) st) = baseModels
  ∧ (Forall (λ g, puter g = false) baseModels →
     Forall (λ g, puter g = false)
       (models (exec (refreshGlobalModels window baseModels) st))).
Proof.
  intros Hoff. unfold exec. rewrite refreshGlobalModels_run, Hoff.
  split; [reflexivity | intros Hbase; exact Hbase].
Qed.

(** C6, amended: with the provider switched on, the SDK global present and
    an empty custom list, rebuilding the global model list stores the base
    list followed by exactly the curated catalog, in its order, each entry
    with its id prefixed by ["puter/"], its name prefixed by ["Puter: "],
    and [external] and [puter] set. *)
Theorem refreshGlobalModels_enabled_empty st :
  puterEnabled st = true →
  isPuterAvailable window = true →
  customModels st = [] →
  ∃ added,
    models (exec (refreshGlobalModels window baseModels) st)
      = baseModels ++ added
    ∧ Forall2 provider_entry CURATED_PUTER_MODELS added.
Proof.
  intros Hon Hsdk Hempty. unfold exec.
  rewrite refreshGlobalModels_run, Hon, Hsdk, Hempty.
  exists (map formatPuterModel CURATED_PUTER_MODELS).
  split; [reflexivity|].
  unfold CURATED_PUTER_MODELS; cbn [map].
  repeat (constructor;
          [split; [reflexivity|];
           split; [eexists; split; reflexivity|];
           split; reflexivity |]).
  constructor.
Qed.

Lemma saveCustomModels_run st :
  saveCustomModels st =
    (add_userSettingsUpdate
       {| s_puterEnabled := s_puterEnabled (settings st);
          s_puterCustomModels := Some (map StoredObject (customModels st)) |}
       (set_settings
          {| s_puterEnabled := s_puterEnabled (settings st);
             s_puterCustomModels := Some (map StoredObject (customModels st)) |}
          st), Returns tt).
Proof. reflexivity. Qed.

Lemma refreshModels_customModels st :
  customModels (exec (refreshModels window) st) = customModels st.
Proof. unfold exec, refreshModels. destruct (isPuterAvailable window); reflexivity. Qed.


Lemma existsb_id_elem_of (modelId : jsstring) (l : list CustomModel) :
  existsb (λ m, bool_decide (cm_id m = modelId)) l = true
  ↔ modelId ∈ map cm_id l.
Proof.
  rewrite existsb_exists, list_elem_of_In, in_map_iff. split.
  - intros (m & Hm & Heq). apply bool_decide_eq_true in Heq. eauto.
  - intros (m & Heq & Hm). exists m. split; [done|].
    by apply bool_decide_eq_true.
Qed.

(** C1, amended: an attempted addition whose id trims to the empty string,
    or whose trimmed id equals the id of an existing custom entry, leaves
    the custom list, the settings and the typed id as they were, persists
    nothing and shows an error; every other attempt appends exactly one
    entry, carrying the trimmed id, and reports success. The custom list
    changes only in the second case. The curated catalog is not consulted
    when adding. *)
Theorem addCustomModel_spec st :
  let modelId := trim (newCustomModelId st) in
  let st' := exec (addCustomModel window baseModels tr) st in
  ((modelId = [] ∨ modelId ∈ map cm_id (customModels st)) →
     customModels st' = customModels st
     ∧ settings st' = settings st
     ∧ userSettingsUpdates st' = userSettingsUpdates st
     ∧ newCustomModelId st' = newCustomModelId st
     ∧ ∃ msg, toasts st' = toasts st ++ [toast_error msg])
  ∧ ((modelId ≠ [] ∧ modelId ∉ map cm_id (customModels st)) →
     customModels st'
       = customModels st
         ++ [{| cm_id := modelId;
                cm_endpoint := or_undefined (trim (newCustomModelEndpoint st)) |}]
     ∧ toasts st' = toasts st ++ [toast_success (tr (lit "Custom model added"))])
  ∧ (customModels st' ≠ customModels st →
     modelId ≠ [] ∧ modelId ∉ map cm_id (customModels st)).
Proof.
  cbn zeta.
  assert (Hrej : (trim (newCustomModelId st) = []
                  ∨ trim (newCustomModelId st) ∈ map cm_id (customModels st)) →
            exec (addCustomModel window baseModels tr) st
              = add_toast (toast_error
                             (tr (if truthy (trim (newCustomModelId st))
                                 then lit "Model already added"
                                 else lit "Please enter a model ID"))) st).
  { intros Hcase. unfold addCustomModel. run_action.
    destruct (truthy (trim (newCustomModelId st))) eqn:Et; cbn [negb]; [|reflexivity].
    destruct Hcase as [Hnil|Hin]; [by apply truthy_false in Hnil; congruence|].
    apply existsb_id_elem_of in Hin. rewrite Hin. reflexivity. }
  split; [|split].
  - intros Hcase. rewrite (Hrej Hcase). repeat split; eauto.
  - intros [Hne Hnin]. unfold addCustomModel. run_action.
    apply truthy_true in Hne. rewrite Hne. cbn [negb].
    destruct (existsb (λ m, bool_decide (cm_id m = trim (newCustomModelId st)))
                (customModels st)) eqn:Eex;
      [by apply existsb_id_elem_of in Eex|].
    unfold refreshModels. destruct (isPuterAvailable window); split; reflexivity.
  - intros Hchg.
    destruct (decide (trim (newCustomModelId st) = [])) as [Hnil|Hne];
      [by rewrite Hrej in Hchg; auto|].
    destruct (decide (trim (newCustomModelId st) ∈ map cm_id (customModels st)))
      as [Hin|Hnin]; [by rewrite Hrej in Hchg; auto|].
    done.
Qed.

(** C9: when the switch is turned on while the SDK global is absent, the
    handler returns with [puterEnabled] back to [false] and one error
    notification shown; the settings store is not touched, nothing is sent
    to the settings collaborator, no ['change'] event is dispatched and the
    global model list is not rebuilt. *)
Theorem handleToggle_sdk_absent st :
  window = None →
  puterEnabled st = true →
  let st' := exec (handleToggle window baseModels tr) st in
  snd (handleToggle window baseModels tr st) = Returns tt
  ∧ puterEnabled st' = false
  ∧ toasts st' = toasts st ++ [toast_error (tr (lit "Puter SDK not available"))]
  ∧ userSettingsUpdates st' = userSettingsUpdates st
  ∧ settings st' = settings st
  ∧ changeEvents st' = changeEvents st
  ∧ models st' = models st.
Proof.
  intros Habsent Hon. cbn zeta. unfold handleToggle. run_action.
  rewrite Hon, Habsent. repeat split.
Qed.

(** C8: on load, a persisted plain string ["foo"] becomes the object with
    id ["foo"] and no endpoint, and a persisted object is kept as it is; the
    custom list of a freshly mounted component is the persisted array with
    every element so migrated (empty when nothing is persisted); and
    mounting on the settings that [saveCustomModels] wrote gives back the
    custom list that was saved. *)
Theorem onMount_migrates :
  (∀ s, migrate (LegacyString s) = {| cm_id := s; cm_endpoint := None |})
  ∧ (∀ m, migrate (StoredObject m) = m)
  ∧ (∀ enabled signedIn u ms s,
       customModels (exec (onMount window) (created enabled signedIn u ms s))
         = match s_puterCustomModels s with
           | Some stored => map migrate stored
           | None => []
           end)
  ∧ (∀ st enabled signedIn u ms,
       let st' := exec saveCustomModels st in
       last (userSettingsUpdates st') = Some (settings st')
       ∧ customModels (exec (onMount window)
                         (created enabled signedIn u ms (settings st')))
           = customModels st).
Proof.
  assert (Hload : ∀ enabled signedIn u ms s,
       customModels (exec (onMount window) (created enabled signedIn u ms s))
         = match s_puterCustomModels s with
           | Some stored => map migrate stored
           | None => []
           end).
  { intros enabled signedIn u ms s. unfold onMount, refreshModels. run_action.
    destruct s as [[b|] [stored|]]; cbn;
      destruct window as [p|]; cbn; try done;
      destruct (auth_isSignedIn (auth p)); cbn; try done;
      destruct (auth_getUser (auth p)) as [usr|e]; cbn; try done;
      try destruct b; try destruct enabled; done. }
  repeat split; try done.
  - unfold exec. rewrite saveCustomModels_run. cbn. apply last_snoc.
  - rewrite Hload. unfold exec. rewrite saveCustomModels_run. cbn.
    induction (customModels st) as [|m l IH]; cbn; [done | by rewrite IH].
Qed.

End Controller.

(** C1 as the spec words it fails: typing the id of a curated model adds it
    to the custom list, and success is reported. *)
Lemma addCustomModel_accepts_curated_id :
  let st := Samples.panel true [] "gpt-4o" in
  let st' := exec (addCustomModel None [] Samples.same) st in
  trim (newCustomModelId st) ∈ curated_ids
  ∧ customModels st' = [Samples.custom "gpt-4o"]
  ∧ customModels st' ≠ customModels st
  ∧ toasts st' = [toast_success (lit "Custom model added")].
Proof.
  cbn zeta. split; [|split; [|split]].
  - apply list_elem_of_In. vm_compute. tauto.
  - vm_compute. reflexivity.
  - vm_compute. discriminate.
  - vm_compute. reflexivity.
Qed.

Lemma addCustomModel_spec_witness :
  (let st := Samples.panel true [Samples.custom "my-model"] " my-model " in
   let st' := exec (addCustomModel None [] Samples.same) st in
   customModels st' = customModels st
   ∧ settings st' = settings st
   ∧ userSettingsUpdates st' = userSettingsUpdates st
   ∧ newCustomModelId st' = newCustomModelId st
   ∧ ∃ msg, toasts st' = toasts st ++ [toast_error msg])
  ∧ (let st := Samples.panel true [Samples.custom "my-model"] "other:m" in
     let st' := exec (addCustomModel None [] Samples.same) st in
     customModels st'
       = customModels st
         ++ [{| cm_id := trim (newCustomModelId st);
                cm_endpoint :=
                  or_undefined (trim (newCustomModelEndpoint st)) |}]
     ∧ toasts st'
         = toasts st ++ [toast_success (Samples.same (lit "Custom model added"))]).
Proof.
  split.
  - apply (proj1 (addCustomModel_spec None [] Samples.same
                    (Samples.panel true [Samples.custom "my-model"] " my-model "))).
    right. apply list_elem_of_In. vm_compute. tauto.
  - apply (proj1 (proj2 (addCustomModel_spec None [] Samples.same
                    (Samples.panel true [Samples.custom "my-model"] "other:m")))).
    split.
    + vm_compute. discriminate.
    + rewrite list_elem_of_In. vm_compute. intros [Heq|[]]. discriminate Heq.
Defined.

Lemma refreshGlobalModels_disabled_witness :
  let w := Some (Samples.sdk true (Returns Samples.whole_reply)) in
  let st := Samples.panel false [Samples.custom "my-model"] "" in
  models (exec (refreshGlobalModels w [Samples.other_model]) st)
    = [Samples.other_model]
  ∧ (Forall (λ g, puter g = false) [Samples.other_model] →
     Forall (λ g, puter g = false)
       (models (exec (refreshGlobalModels w [Samples.other_model]) st))).
Proof.
  apply (refreshGlobalModels_disabled
           (Some (Samples.sdk true (Returns Samples.whole_reply)))
           [Samples.other_model]
           (Samples.panel false [Samples.custom "my-model"] "")).
  reflexivity.
Defined.

(** C6 as the spec words it fails: with the provider switched on, an empty
    custom list, and the SDK global absent, the rebuilt list is the base
    list alone. *)
Lemma refreshGlobalModels_enabled_sdk_absent :
  let st := Samples.panel true [] "" in
  let st' := exec (refreshGlobalModels None [Samples.other_model]) st in
  puterEnabled st = true
  ∧ customModels st = []
  ∧ models st' = [Samples.other_model]
  ∧ ¬ (∃ added, models st' = [Samples.other_model] ++ added
                ∧ Forall2 provider_entry CURATED_PUTER_MODELS added).
Proof.
  cbn zeta. split; [reflexivity|]. split; [reflexivity|].
  split; [reflexivity|].
  intros (added & Heq & Hall).
  change (models (exec (refreshGlobalModels None [Samples.other_model])
                    (Samples.panel true [] "")))
    with ([Samples.other_model] ++ []) in Heq.
  apply app_inv_head in Heq. subst added.
  inversion Hall.
Qed.

Lemma refreshGlobalModels_enabled_empty_witness :
  let w := Some (Samples.sdk false (Returns Samples.whole_reply)) in
  let st := Samples.panel true [] "" in
  ∃ added,
    models (exec (refreshGlobalModels w [Samples.other_model]) st)
      = [Samples.other_model] ++ added
    ∧ Forall2 provider_entry CURATED_PUTER_MODELS added.
Proof.
  apply (refreshGlobalModels_enabled_empty
           (Some (Samples.sdk false (Returns Samples.whole_reply)))
           [Samples.other_model] (Samples.panel true [] ""));
    reflexivity.
Defined.

Lemma handleToggle_sdk_absent_witness :
  let st := Samples.panel true [Samples.custom "my-model"] "" in
  let st' := exec (handleToggle None [Samples.other_model] Samples.same) st in
  snd (handleToggle None [Samples.other_model] Samples.same st) = Returns tt
  ∧ puterEnabled st' = false
  ∧ toasts st'
      = toasts st
        ++ [toast_error (Samples.same (lit "Puter SDK not available"))]
  ∧ userSettingsUpdates st' = userSettingsUpdates st
  ∧ settings st' = settings st
  ∧ changeEvents st' = changeEvents st
  ∧ models st' = models st.
Proof.
  apply (handleToggle_sdk_absent None [Samples.other_model] Samples.same
           (Samples.panel true [Samples.custom "my-model"] ""));
    reflexivity.
Defined.


(* ===================================================================== *)
(** ** Further properties: streaming chat *)
(* ===================================================================== *)

Section ChatMore.

Lemma callbacks_tokens d rest :
  callbacks (map OnToken d ++ rest) = map OnToken d ++ callbacks rest.
Proof. induction d as [|tok d IH]; simpl; [done | by rewrite IH]. Qed.

Lemma delivered_app_tokens d rest :
  delivered (map OnToken d ++ rest) = d ++ delivered rest.
Proof.
  unfold delivered. rewrite omap_app. fold (delivered (map OnToken d)).
  by rewrite delivered_tokens.
Qed.

Lemma not_aborted_error e : Aborted ∉ [OnError e].
Proof. rewrite list_elem_of_singleton. done. Qed.

Lemma aborted_alone : Aborted ∈ [Aborted].
Proof. apply list_elem_of_singleton. done. Qed.

Lemma chat_with_sdk puter msgs opts cancel :
  ∃ trace, chat (Some puter) msgs opts cancel = Returns trace.
Proof. unfold chat. cbn [getPuter mbind completion_bind bind]. eauto. Qed.

(** X2: when the iteration of a streamed response fails and the call is not
    cancelled, the tokens of the chunks that came before the failure have
    been delivered, in order, and are followed by exactly one [onError]
    with the error of the iteration; [onComplete] is not called. *)
Theorem chat_stream_failure puter msgs opts chunks e :
  ai_chat (ai puter) msgs (withStream opts true)
    = Returns (AsyncIterable chunks (Fails e)) →
  chat (Some puter) msgs opts NotCancelled
    = Returns (map OnToken (tokens chunks) ++ [OnError e]).
Proof.
  intros Hraw. unfold chat. cbn [getPuter mbind completion_bind bind].
  rewrite Hraw. unfold chatTry. rewrite forAwait_NotCancelled. reflexivity.
Qed.

Lemma decide_succ {A} (j n : nat) (a b : A) :
  (if decide (S j = S n) then a else b) = (if decide (j = n) then a else b).
Proof. destruct (decide (j = n)), (decide (S j = S n)); try done; lia. Qed.

(** The loop when [abort()] comes during its [j]-th coming [next()]. *)
Lemma forAwait_DuringNext chunks : ∀ i j ending txt,
  (j ≤ length chunks)%nat →
  forAwait (DuringNext (i + j)) i chunks ending false txt =
    {| emitted := map OnToken (tokens (take j chunks)) ++ [Aborted];
       aborted := true;
       fullText := txt ++ concat (tokens (take j chunks));
       thrown := if decide (j = length chunks) then end_error ending
                 else None |}.
Proof.
  induction chunks as [|chunk rest IH]; intros i j ending txt Hj.
  - assert (j = 0)%nat as -> by (simpl in Hj; lia).
    cbn [forAwait abortsAt]. rewrite Nat.add_0_r, Nat.eqb_refl. cbn.
    rewrite app_nil_r. by destruct ending.
  - destruct j as [|j].
    + cbn [forAwait abortsAt]. rewrite Nat.add_0_r, Nat.eqb_refl. cbn.
      by rewrite app_nil_r.
    + rewrite forAwait_cons.
      2:{ cbn [abortsAt]. apply Nat.eqb_neq. lia. }
      replace (i + S j)%nat with (S i + j)%nat by lia.
      cbn [take]. rewrite tokens_cons. cbn [length] in Hj. cbn [length].
      rewrite decide_succ.
      destruct (token_of chunk) as [tok|].
      * rewrite IH by lia. unfold emit_first. cbn.
        by rewrite <- app_assoc.
      * by rewrite IH by lia.
Qed.

(** X3: when a streamed response is cancelled while the [k]-th [next()] is
    awaited, the tokens delivered are exactly the tokens of the first [k]
    chunks, all of them delivered before the cancellation. *)
Theorem chat_cancel_position puter msgs opts chunks ending k :
  ai_chat (ai puter) msgs (withStream opts true)
    = Returns (AsyncIterable chunks ending) →
  (k ≤ length chunks)%nat →
  ∃ trace,
    chat (Some puter) msgs opts (DuringNext k) = Returns trace
    ∧ Aborted ∈ trace
    ∧ delivered trace = tokens (take k chunks)
    ∧ before_abort trace = map OnToken (tokens (take k chunks)).
Proof.
  intros Hraw Hk. unfold chat. cbn [getPuter mbind completion_bind bind].
  rewrite Hraw. unfold chatTry.
  pose proof (forAwait_DuringNext chunks 0 k ending [] Hk) as Hrun.
  cbn [Nat.add] in Hrun. rewrite Hrun. clear Hrun.
  eexists. split; [reflexivity|].
  destruct (if decide (k = length chunks) then end_error ending else None);
    cbn; rewrite <- ?app_assoc; cbn.
  - split; [apply elem_of_app; right; apply aborted_alone|].
    rewrite delivered_app_tokens, before_abort_tokens. cbn.
    by rewrite app_nil_r.
  - split; [apply elem_of_app; right; apply elem_of_cons; by left|].
    rewrite delivered_app_tokens, before_abort_tokens. cbn.
    by rewrite app_nil_r.
Qed.

(** X4: when [puter.ai.chat] rejects, a call that is not cancelled gets
    exactly one [onError] with that error; when the call was cancelled
    while the SDK was still answering, a rejection or an error payload
    gives no callback at all; and when the iteration fails on the [next()]
    during which the cancellation came, the tokens delivered so far are
    followed by no callback. *)
Theorem chat_failure_when_cancelled puter msgs opts :
  (∀ e, ai_chat (ai puter) msgs (withStream opts true) = Throws e →
        chat (Some puter) msgs opts NotCancelled = Returns [OnError e]
        ∧ chat (Some puter) msgs opts DuringCall = Returns [Aborted])
  ∧ (∀ er, ai_chat (ai puter) msgs (withStream opts true)
             = Returns (ErrorPayload er) →
           chat (Some puter) msgs opts DuringCall = Returns [Aborted])
  ∧ (∀ chunks e, ai_chat (ai puter) msgs (withStream opts true)
                   = Returns (AsyncIterable chunks (Fails e)) →
                 chat (Some puter) msgs opts (DuringNext (length chunks))
                   = Returns (map OnToken (tokens chunks) ++ [Aborted])).
Proof.
  unfold chat. cbn [getPuter mbind completion_bind bind].
  split; [|split].
  - intros e ->. split; reflexivity.
  - intros er ->. reflexivity.
  - intros chunks e ->. unfold chatTry.
    pose proof (forAwait_DuringNext chunks 0 (length chunks) (Fails e) []
                  (le_n _)) as Hrun.
    cbn [Nat.add] in Hrun. rewrite Hrun. clear Hrun.
    rewrite firstn_all, decide_True by done. cbn.
    by rewrite app_nil_r.
Qed.

Lemma or_else_filled a b : a ≠ [] → or_else a b = a.
Proof. by destruct a. Qed.

Lemma opt_or_else_filled field s b : filled field s → opt_or_else field b = s.
Proof. intros [-> Hs]. simpl. by apply or_else_filled. Qed.

Lemma opt_or_else_unfilled field b : unfilled field → opt_or_else field b = b.
Proof. by intros [-> | ->]. Qed.

(** X5: the message of the error that [chat] reports for an error payload
    is never empty: it is the payload's [error.message] when that is a
    non-empty string, else its [error.code] when that is a non-empty
    string, else ["Puter API error"]. *)
Theorem chat_error_payload_message puter msgs opts er :
  ai_chat (ai puter) msgs (withStream opts true) = Returns (ErrorPayload er) →
  ∃ m,
    chat (Some puter) msgs opts NotCancelled = Returns [OnError (Error m)]
    ∧ m ≠ []
    ∧ (∀ s, filled (error er ≫= err_message) s → m = s)
    ∧ (∀ s, unfilled (error er ≫= err_message) →
            filled (error er ≫= err_code) s → m = s)
    ∧ (unfilled (error er ≫= err_message) →
       unfilled (error er ≫= err_code) → m = lit "Puter API error").
Proof.
  intros Hraw. exists (errorMessage er). split.
  { unfold chat. cbn [getPuter mbind completion_bind bind]. by rewrite Hraw. }
  unfold errorMessage.
  set (message := error er ≫= err_message). set (code := error er ≫= err_code).
  split; [|split; [|split]].
  - destruct message as [[|c m]|]; [|done|]; cbn;
      destruct code as [[|c' m']|]; done.
  - intros s Hs. by apply opt_or_else_filled.
  - intros s Hm Hc. rewrite opt_or_else_unfilled by done.
    by apply opt_or_else_filled.
  - intros Hm Hc. by rewrite !opt_or_else_unfilled.
Qed.

End ChatMore.

Section Cancellation.



Lemma after_abort_none evs : Aborted ∉ evs → after_abort evs = [].
Proof.
  induction evs as [|ev evs IH]; [done|]. intros Hno.
  apply not_elem_of_cons in Hno as [Hev Hevs].
  destruct ev; [done | | |]; by apply IH.
Qed.



End Cancellation.



Section ChatCalling.

Import PuterCallbacks.





Lemma after_abort_split evs rest :
  Aborted ∉ evs → after_abort (evs ++ Aborted :: rest) = rest.
Proof.
  induction evs as [|ev evs IH]; [done|]. intros Hno.
  apply not_elem_of_cons in Hno as [Hev Hevs].
  destruct ev; [done | | |]; by apply IH.
Qed.


Lemma abortMark_first a : abortMark a false = if a then [Aborted] else [].
Proof. by destruct a. Qed.

Lemma abortMark_false a : abortMark false a = [].
Proof. reflexivity. Qed.






Lemma after_abort_nothing evs ev :
  Aborted ∉ evs → ev ∉ after_abort (evs ++ [Aborted]).
Proof. intros Hno. rewrite after_abort_split by done. apply not_elem_of_nil. Qed.

Lemma after_abort_never evs ev : Aborted ∉ evs → ev ∉ after_abort evs.
Proof. intros Hno. rewrite after_abort_none by done. apply not_elem_of_nil. Qed.


(** With callbacks that return and leave the controller alone, the events
    are those of [chat]. *)
Lemma forAwaitCalling_returning cancel chunks : ∀ i ending wasAborted txt evs,
  (wasAborted = true → abortsAt cancel i = false) →
  forAwaitCalling returning cancel i chunks ending wasAborted txt evs
    = {| seen := evs ++ emitted (forAwait cancel i chunks ending wasAborted txt);
         isAborted := aborted (forAwait cancel i chunks ending wasAborted txt);
         text_ := fullText (forAwait cancel i chunks ending wasAborted txt);
         raised := RaisedError
                     <$> thrown (forAwait cancel i chunks ending wasAborted
                                   txt) |}.
Proof.
  induction chunks as [|chunk rest IH]; intros i ending wasAborted txt evs Hwas.
  - cbn. unfold abortMark.
    destruct wasAborted; [rewrite Hwas by done|];
      destruct (abortsAt cancel i), ending; cbn; by rewrite ?app_nil_r.
  - cbn [forAwaitCalling forAwait].
    destruct wasAborted.
    { rewrite Hwas by done. cbn. by rewrite !app_nil_r. }
    destruct (abortsAt cancel i); [cbn; by rewrite ?app_nil_r|].
    cbn [orb]. rewrite abortMark_false, app_nil_r, emit_first_nil.
    destruct (text chunk) as [tok|]; [|by apply IH].
    destruct (truthy tok); [|by apply IH].
    cbn [returning onToken returns raises callsAbort orb].
    rewrite abortMark_false, IH by done. cbn. by rewrite <- app_assoc.
Qed.

Lemma chatCalling_returning w msgs opts cancel :
  chatCalling returning w msgs opts cancel = chat w msgs opts cancel.
Proof.
  destruct w as [puter|]; [|reflexivity].
  unfold chatCalling, chat. cbn [getPuter mbind completion_bind bind].
  f_equal.
  destruct (ai_chat (ai puter) msgs (withStream opts true))
    as [[er|chunks ending|r]|e0].
  - by destruct cancel.
  - unfold chatTryCalling, chatTry. cbn zeta.
    rewrite forAwaitCalling_returning by (clear; by destruct cancel).
    cbn [raised seen isAborted text_].
    set (a0 := match cancel with DuringCall => true | _ => false end).
    set (r := forAwait cancel 0 chunks ending a0 []).
    rewrite abortMark_first.
    destruct (thrown r) as [e|] eqn:Ht; cbn [fmap option_fmap option_map].
    + unfold chatCatch. cbn [raised seen isAborted toError]. rewrite Ht.
      destruct (aborted r); cbn [thrown emitted aborted returning onError
                                 returns callsAbort];
        rewrite ?abortMark_false, ?app_nil_r, <- ?app_assoc; done.
    + unfold chatCatch, complete.
      cbn [raised seen isAborted toError returning onComplete returns
           raises callsAbort thrown emitted aborted].
      rewrite ?abortMark_false, ?app_nil_r, <- ?app_assoc. done.
  - by destruct cancel.
  - by destruct cancel.
Qed.

End ChatCalling.


(* ===================================================================== *)
(** ** Further properties: the adapter *)
(* ===================================================================== *)

Section AdapterMore.

(** X6: [getAuthState] never raises; it reports signed-in exactly when the
    SDK is present and says so; it reports no user when it reports not
    signed in; and a user it reports is the one the SDK's user fetch
    returned. *)
Theorem getAuthState_consistent w :
  ∃ s,
    getAuthState w = Returns s
    ∧ (isSignedIn_ s = true ↔ ∃ puter, w = Some puter ∧ auth_isSignedIn (auth puter) = true)
    ∧ (isSignedIn_ s = false → user_ s = None)
    ∧ (∀ u, user_ s = Some u →
            ∃ puter, w = Some puter ∧ auth_getUser (auth puter) = Returns u).
Proof.
  destruct w as [puter|].
  - unfold getAuthState, getUser, isSignedIn. cbn.
    destruct (auth_isSignedIn (auth puter)) eqn:Hin; cbn.
    + destruct (auth_getUser (auth puter)) as [u|e] eqn:Hu; cbn;
        eexists; (split; [reflexivity|]); cbn; repeat split; try done; eauto.
      intros u' [= <-]. eauto.
    + eexists. split; [reflexivity|]. cbn. repeat split; try done.
      intros (p & [= <-] & Hp). congruence.
  - eexists. split; [reflexivity|]. cbn. repeat split; try done.
    intros (p & Hp & _). discriminate.
Qed.

(** X7: with the SDK present, [chatSync] returns exactly when the SDK,
    asked with [stream: false], resolves to a complete response, and then
    returns its text and usage; a rejection of the SDK is passed on to the
    caller; and a response of another shape (an iterable or an error
    payload) makes it fail with a [TypeError]. *)
Theorem chatSync_result puter msgs opts :
  (∀ r, chatSync (Some puter) msgs opts = Returns r ↔
        ∃ resp, ai_chat (ai puter) msgs (withStream opts false)
                  = Returns (ChatResponse resp)
                ∧ r = {| cr_text := message_content resp;
                         cr_usage := usage resp |})
  ∧ (∀ e, ai_chat (ai puter) msgs (withStream opts false) = Throws e →
          chatSync (Some puter) msgs opts = Throws e)
  ∧ (∀ raw, ai_chat (ai puter) msgs (withStream opts false) = Returns raw →
            (∀ resp, raw ≠ ChatResponse resp) →
            chatSync (Some puter) msgs opts = Throws TypeError).
Proof.
  unfold chatSync. cbn [getPuter mbind completion_bind bind].
  destruct (ai_chat (ai puter) msgs (withStream opts false)) as [raw|e].
  - destruct raw as [er|chunks ending|resp]; cbn; repeat split; try done.
    + intros (resp & [=] & _).
    + intros (resp & [=] & _).
    + intros [= <-]. eauto.
    + intros (resp' & [= <-] & ->). done.
    + intros raw [= <-] Hnot. exfalso. by apply (Hnot resp).
  - cbn. repeat split; try done.
    + intros (resp & [=] & _).
    + by intros e' [= <-].
Qed.

Lemma take_take_same {A} n (l : list A) : take n (take n l) = take n l.
Proof. rewrite take_take. f_equal. lia. Qed.

(** X8: [generateTitle] looks at no more than the first 200 code units of
    each of the two messages, and the messages it sends to the SDK are at
    most 419 code units long each. *)
Theorem generateTitle_reads_200 w userMessage assistantMessage :
  generateTitle w userMessage assistantMessage
    = generateTitle w (take 200 userMessage) (take 200 assistantMessage)
  ∧ (∀ m, m ∈ titleMessages userMessage assistantMessage →
          (length (content m) ≤ 419)%nat).
Proof.
  split.
  - unfold generateTitle, titleMessages, slice0. by rewrite !take_take_same.
  - intros m Hm. unfold titleMessages in Hm.
    apply elem_of_cons in Hm as [->|Hm]; [vm_compute; lia|].
    apply list_elem_of_singleton in Hm as ->. cbn [content]. unfold slice0.
    rewrite !length_app, !length_take. cbn [length].
    change (length (lit "User: ")) with 6%nat.
    change (length (lit "Assistant: ")) with 11%nat. lia.
Qed.

(** X9: a title that [generateTitle] returns never starts with a blank,
    and when it is shorter than 100 code units it does not end with one
    either. *)
Theorem generateTitle_clean w userMessage assistantMessage title :
  generateTitle w userMessage assistantMessage = Returns title →
  starts_clean title ∧ ((length title < 100)%nat → ends_clean title).
Proof.
  unfold generateTitle.
  destruct (chatSync w (titleMessages userMessage assistantMessage) titleOptions)
    as [r|e]; cbn [mbind completion_bind bind try_catch mret completion_ret];
    intros Heq.
  - assert (title = take 100 (trim (cr_text r))) as -> by (unfold slice0 in Heq; congruence).
    clear Heq. set (txt := trim (cr_text r)).
    pose proof (trim_starts_clean (cr_text r)) as Hstart.
    pose proof (trim_ends_clean (cr_text r)) as Hend. fold txt in Hstart, Hend.
    split.
    + destruct txt as [|c s]; [exact I | exact Hstart].
    + intros Hshort. rewrite length_take in Hshort.
      rewrite take_ge by lia. exact Hend.
  - assert (title = lit "New Chat") as -> by congruence.
    split; [exact eq_refl | intros _; exact eq_refl].
Qed.

End AdapterMore.

(* ===================================================================== *)
(** ** Further properties: the merged catalog *)
(* ===================================================================== *)

Section CatalogMore.

Lemma kept_filter (customModels : list PuterCustomModel) :
  List.filter
    (λ m, truthy (cm_id m) && truthy (trim (cm_id m))
          && negb (bool_decide (trim (cm_id m) ∈
               (list_to_set (map id CURATED_PUTER_MODELS) : gset jsstring))))
    customModels
  = filter kept customModels.
Proof.
  apply List_filter_decide. intros m. unfold kept, curated_ids.
  rewrite !andb_true_iff, negb_true_iff, bool_decide_eq_false.
  rewrite elem_of_list_to_set, !truthy_true. split; [tauto|].
  intros [Hne Hnin]. repeat split; try done.
  intros Heq. rewrite Heq in Hne. by vm_compute in Hne.
Qed.

(** The ids of the merged list: the curated ids, then the trimmed ids of
    the custom entries that are kept. *)
Lemma getModelsWithCustom_ids (customModels : list PuterCustomModel) :
  map id (getModelsWithCustom customModels)
  = curated_ids ++ map (λ m, trim (cm_id m)) (filter kept customModels).
Proof.
  unfold getModelsWithCustom, getCuratedModels. rewrite kept_filter.
  rewrite map_app, map_map. reflexivity.
Qed.

Lemma getModelsWithCustom_names (customModels : list PuterCustomModel) :
  map name (getModelsWithCustom customModels)
  = map name CURATED_PUTER_MODELS
    ++ map (λ m, Some (trim (cm_id m))) (filter kept customModels).
Proof.
  unfold getModelsWithCustom, getCuratedModels. rewrite kept_filter.
  rewrite map_app, map_map. reflexivity.
Qed.

Lemma curated_ids_distinct : NoDup curated_ids.
Proof.
  apply (bool_decide_eq_true_1 (NoDup curated_ids)). vm_compute. reflexivity.
Qed.

Lemma curated_tidy :
  Forall (λ m, tidy_id (id m) ∧ ∃ n, name m = Some n ∧ n ≠ [])
    CURATED_PUTER_MODELS.
Proof.
  unfold CURATED_PUTER_MODELS.
  repeat (constructor;
          [split; [split; [discriminate | vm_compute; reflexivity]
                  | eexists; split; [reflexivity | discriminate]] |]).
  constructor.
Qed.

Lemma trim_tidy s : trim s ≠ [] → tidy_id (trim s).
Proof. intros Hne. split; [done | apply trim_idempotent]. Qed.

Lemma merged_tidy (customModels : list PuterCustomModel) :
  Forall (λ out, tidy_id (id out) ∧ ∃ n, name out = Some n ∧ n ≠ [])
    (getModelsWithCustom customModels).
Proof.
  unfold getModelsWithCustom, getCuratedModels. rewrite kept_filter.
  apply Forall_app. split; [apply curated_tidy|].
  apply Forall_map. apply Forall_forall. intros m Hm.
  apply list_elem_of_filter in Hm as [[Hne _] _]. cbn.
  split; [by apply trim_tidy | eauto].
Qed.

(** X10: every entry of the merged list, whatever the custom list holds,
    has a non-empty id with no blank at either end, and a non-empty
    name. *)
Theorem merged_entries_tidy (customModels : list PuterCustomModel) out :
  out ∈ getModelsWithCustom customModels →
  tidy_id (id out) ∧ ∃ n, name out = Some n ∧ n ≠ [].
Proof.
  intros Hin. pose proof (merged_tidy customModels) as Hall.
  rewrite Forall_forall in Hall. by apply Hall.
Qed.

(** X11: when the trimmed ids of the custom list are pairwise distinct, the
    ids of the merged list are pairwise distinct. *)
Theorem merged_ids_distinct (customModels : list PuterCustomModel) :
  NoDup (map (λ m, trim (cm_id m)) customModels) →
  NoDup (map id (getModelsWithCustom customModels)).
Proof.
  intros Hdistinct. rewrite getModelsWithCustom_ids.
  apply NoDup_app. split; [apply curated_ids_distinct|]. split.
  - intros i Hcur Hin. apply list_elem_of_fmap in Hin as (m & -> & Hm).
    apply list_elem_of_filter in Hm as [[_ Hnot] _]. done.
  - induction customModels as [|m l IH]; [constructor|].
    cbn [map] in Hdistinct. apply NoDup_cons in Hdistinct as [Hm Hl].
    rewrite filter_cons. destruct (decide (kept m)); [|by apply IH].
    cbn [map]. apply NoDup_cons. split; [|by apply IH].
    intros Hin. apply Hm. apply list_elem_of_fmap in Hin as (m' & Heq & Hm').
    apply list_elem_of_filter in Hm' as [_ Hm']. apply list_elem_of_fmap. eauto.
Qed.

(** X12: a custom entry whose id trims to the empty string or to a curated
    id has no effect on the merged list, wherever it stands in the custom
    list. *)
Theorem merged_ignores_dropped (before after : list PuterCustomModel) m :
  (trim (cm_id m) = [] ∨ trim (cm_id m) ∈ curated_ids) →
  getModelsWithCustom (before ++ m :: after)
    = getModelsWithCustom (before ++ after).
Proof.
  intros Hdrop. unfold getModelsWithCustom, getCuratedModels.
  rewrite !kept_filter, !filter_app, filter_cons.
  destruct (decide (kept m)) as [[Hne Hnot]|_]; [|done].
  destruct Hdrop; done.
Qed.

End CatalogMore.

(* ===================================================================== *)
(** ** Further properties: the settings panel controller *)
(* ===================================================================== *)

#[local] Arguments trim : simpl never.
#[local] Arguments lit : simpl never.
#[local] Arguments getModelsWithCustom : simpl never.

Ltac state_fields :=
  cbn [fst snd puterEnabled puterSignedIn puterUser models settings loading
       availableModels newCustomModelId newCustomModelEndpoint customModels
       toasts userSettingsUpdates changeEvents
       set_puterEnabled set_puterSignedIn set_puterUser set_models set_settings
       set_loading set_availableModels set_newCustomModelId
       set_newCustomModelEndpoint set_customModels
       add_toast add_userSettingsUpdate add_changeEvent
       s_puterEnabled s_puterCustomModels andb negb].

Ltac run_handler :=
  run_action; unfold act_try, act_ret; cbn beta iota.

Section ControllerMore.

Variable window : Window.
Variable baseModels : list GlobalModel.
Variable tr : jsstring → jsstring.
Variable typeErrorMessage : jsstring.

Lemma modelLabel_tidy m : tidy_id (id m) → modelLabel m = id m.
Proof. intros [Hne _]. unfold modelLabel. by apply or_else_filled. Qed.

Lemma formatPuterModel_tidy m :
  (tidy_id (id m) ∧ ∃ n, name m = Some n ∧ n ≠ []) →
  formatPuterModel m = global_entry (id m) (default (id m) (name m)).
Proof.
  intros [Hid (n & Hn & Hne)]. unfold formatPuterModel, global_entry.
  rewrite modelLabel_tidy by done. rewrite Hn. cbn.
  by rewrite or_else_filled.
Qed.

Lemma merged_labels (customModels : list PuterCustomModel) :
  map modelLabel (getModelsWithCustom customModels)
  = map id (getModelsWithCustom customModels).
Proof.
  pose proof (merged_tidy customModels) as Htidy.
  induction Htidy as [|m l [Hm _] _ IH]; [done|].
  cbn [map]. by rewrite modelLabel_tidy, IH.
Qed.

Lemma merged_formatted (customModels : list PuterCustomModel) :
  map formatPuterModel (getModelsWithCustom customModels)
  = global_entries (getModelsWithCustom customModels).
Proof.
  pose proof (merged_tidy customModels) as Htidy.
  unfold global_entries.
  induction Htidy as [|m l Hm _ IH]; [done|].
  cbn [map]. by rewrite formatPuterModel_tidy, IH.
Qed.

Lemma merged_length (customModels : list PuterCustomModel) :
  length (getModelsWithCustom customModels)
  = (21 + length (filter kept customModels))%nat.
Proof.
  rewrite <- (length_map id), getModelsWithCustom_ids.
  rewrite length_app, length_map. reflexivity.
Qed.

Lemma refreshModels_run st :
  refreshModels window st =
    (if isPuterAvailable window then
       set_loading false
         (set_availableModels
            (map modelLabel (getModelsWithCustom (customModels st)))
            (set_loading true st))
     else st, Returns tt).
Proof. unfold refreshModels. by destruct (isPuterAvailable window). Qed.

(** X13: with the provider switched on and the SDK global present,
    rebuilding the global model list stores, for every custom list, the
    base list followed by one entry per model of the merged catalog, in
    order, with id ["puter/"] + id, name ["Puter: "] + name, owner
    ["puter"] and both flags set; so its length is that of the base list
    plus 21 plus the number of custom entries kept. *)
Theorem refreshGlobalModels_enabled st :
  puterEnabled st = true →
  isPuterAvailable window = true →
  models (exec (refreshGlobalModels window baseModels) st)
    = baseModels ++ global_entries (getModelsWithCustom (customModels st))
  ∧ length (models (exec (refreshGlobalModels window baseModels) st))
    = (length baseModels + 21 + length (filter kept (customModels st)))%nat.
Proof.
  intros Hon Hsdk. unfold exec. rewrite refreshGlobalModels_run, Hon, Hsdk.
  cbn [andb fst models set_models].
  assert (Hlen : (0 <? length (getModelsWithCustom (customModels st)))%nat = true).
  { rewrite merged_length. reflexivity. }
  rewrite Hlen, merged_formatted. split; [reflexivity|].
  unfold global_entries. rewrite length_app, length_map, merged_length.
  unfold CustomModel. lia.
Qed.

(** X14: [refreshGlobalModels] builds the list anew: the list it stores does
    not depend on the list that was stored before, running it twice gives
    the same state as running it once, and it changes nothing but the
    [models] store. *)
Theorem refreshGlobalModels_rebuilds st :
  (∀ ms, models (exec (refreshGlobalModels window baseModels) (set_models ms st))
         = models (exec (refreshGlobalModels window baseModels) st))
  ∧ exec (refreshGlobalModels window baseModels)
      (exec (refreshGlobalModels window baseModels) st)
    = exec (refreshGlobalModels window baseModels) st
  ∧ exec (refreshGlobalModels window baseModels) st
    = set_models (models (exec (refreshGlobalModels window baseModels) st)) st.
Proof.
  unfold exec. split; [|split].
  - intros ms. rewrite !refreshGlobalModels_run. reflexivity.
  - rewrite !refreshGlobalModels_run. reflexivity.
  - rewrite refreshGlobalModels_run. reflexivity.
Qed.

(** X15: with the SDK global present, [refreshModels] sets the list of
    available models to the curated ids followed by the trimmed ids of the
    custom entries kept, and leaves [loading] false; with the SDK absent it
    changes nothing. *)
Theorem refreshModels_lists_merged st :
  (isPuterAvailable window = true →
   availableModels (exec (refreshModels window) st)
     = curated_ids
       ++ map (λ m, trim (cm_id m)) (filter kept (customModels st))
   ∧ loading (exec (refreshModels window) st) = false)
  ∧ (isPuterAvailable window = false →
     exec (refreshModels window) st = st).
Proof.
  unfold exec. rewrite refreshModels_run. split; intros ->; [|done].
  cbn [fst availableModels loading set_loading set_availableModels].
  rewrite merged_labels, getModelsWithCustom_ids. done.
Qed.

(** X16: after the "Refresh model list" button, with the provider switched
    on and the SDK present, the ids in the global list are the base ids
    followed by ["puter/"] + each available model, in the same order. *)
Theorem refreshClicked_consistent st :
  puterEnabled st = true →
  isPuterAvailable window = true →
  let st' := exec (refreshClicked window baseModels) st in
  map g_id (models st')
    = map g_id baseModels ++ map (λ i, lit "puter/" ++ i) (availableModels st').
Proof.
  intros Hon Hsdk. cbn zeta. unfold refreshClicked. run_action.
  rewrite refreshModels_run, Hsdk. cbn [fst snd].
  rewrite refreshGlobalModels_run. cbn [fst].
  cbn [puterEnabled customModels set_loading set_availableModels models
       set_models availableModels].
  rewrite Hon, Hsdk. cbn [andb].
  assert (Hlen : (0 <? length (getModelsWithCustom (customModels st)))%nat = true).
  { rewrite merged_length. reflexivity. }
  rewrite Hlen, merged_formatted, merged_labels.
  unfold global_entries. rewrite map_app, !map_map. reflexivity.
Qed.


Lemma addCustomModel_rejected st :
  (trim (newCustomModelId st) = []
   ∨ trim (newCustomModelId st) ∈ map cm_id (customModels st)) →
  exec (addCustomModel window baseModels tr) st
    = add_toast (toast_error
                   (tr (if truthy (trim (newCustomModelId st))
                        then lit "Model already added"
                        else lit "Please enter a model ID"))) st.
Proof.
  intros Hcase. unfold addCustomModel. run_action.
  destruct (truthy (trim (newCustomModelId st))) eqn:Et; cbn [negb]; [|reflexivity].
  destruct Hcase as [Hnil|Hin]; [by apply truthy_false in Hnil; congruence|].
  apply existsb_id_elem_of in Hin. rewrite Hin. reflexivity.
Qed.

(** The entry that [addCustomModel] builds from the two inputs. *)
Lemma addCustomModel_accepted st :
  trim (newCustomModelId st) ≠ [] →
  trim (newCustomModelId st) ∉ map cm_id (customModels st) →
  exec (addCustomModel window baseModels tr) st
    = add_toast (toast_success (tr (lit "Custom model added")))
        (exec (refreshGlobalModels window baseModels)
           (exec (refreshModels window)
              (exec saveCustomModels
                 (set_newCustomModelEndpoint []
                    (set_newCustomModelId []
                       (set_customModels
                          (customModels st
                           ++ [{| cm_id := trim (newCustomModelId st);
                                  cm_endpoint :=
                                    or_undefined
                                      (trim (newCustomModelEndpoint st)) |}])
                          st)))))).
Proof.
  intros Hne Hnin. unfold addCustomModel. run_action.
  apply truthy_true in Hne. rewrite Hne. cbn [negb].
  destruct (existsb (λ m, bool_decide (cm_id m = trim (newCustomModelId st)))
              (customModels st)) eqn:Eex;
    [by apply existsb_id_elem_of in Eex|].
  unfold refreshModels. destruct (isPuterAvailable window); reflexivity.
Qed.

Lemma or_undefined_trim_tidy s : tidy_endpoint (or_undefined (trim s)).
Proof.
  unfold or_undefined. destruct (truthy (trim s)) eqn:E; [|exact I].
  apply truthy_true in E. by apply trim_tidy.
Qed.

Lemma last_snoc_settings (l : list Settings) s : last (l ++ [s]) = Some s.
Proof. apply last_snoc. Qed.

(** X17: an addition that is accepted writes the settings once: afterwards
    the settings store holds exactly the new custom list, that is what was
    sent to the settings collaborator, and the stored [puterEnabled] is
    untouched; both inputs are cleared; with the SDK present the new id is
    among the available models, and with the provider also switched on
    ["puter/"] + id is in the global model list. *)
Theorem addCustomModel_persists st :
  trim (newCustomModelId st) ≠ [] →
  trim (newCustomModelId st) ∉ map cm_id (customModels st) →
  let st' := exec (addCustomModel window baseModels tr) st in
  synced st'
  ∧ userSettingsUpdates st' = userSettingsUpdates st ++ [settings st']
  ∧ s_puterEnabled (settings st') = s_puterEnabled (settings st)
  ∧ newCustomModelId st' = []
  ∧ newCustomModelEndpoint st' = []
  ∧ (isPuterAvailable window = true →
     trim (newCustomModelId st) ∈ availableModels st')
  ∧ (isPuterAvailable window = true → puterEnabled st = true →
     lit "puter/" ++ trim (newCustomModelId st) ∈ map g_id (models st')).
Proof.
  intros Hne Hnin. cbn zeta. rewrite addCustomModel_accepted by done.
  unfold exec. rewrite saveCustomModels_run, refreshModels_run. cbn [fst].
  rewrite refreshGlobalModels_run. cbn [fst].
  set (entry := {| cm_id := trim (newCustomModelId st);
                   cm_endpoint := or_undefined (trim (newCustomModelEndpoint st)) |}).
  assert (Hlisted : trim (newCustomModelId st)
                    ∈ map id (getModelsWithCustom (customModels st ++ [entry]))).
  { rewrite getModelsWithCustom_ids.
    destruct (decide (trim (newCustomModelId st) ∈ curated_ids)) as [Hcur|Hcur];
      [by apply elem_of_app; left|].
    apply elem_of_app; right. rewrite filter_app, map_app.
    apply elem_of_app; right. rewrite filter_cons.
    assert (Hkept : kept entry).
    { unfold kept, entry; cbn. rewrite trim_idempotent. done. }
    rewrite decide_True by done. cbn. rewrite trim_idempotent.
    apply elem_of_cons. by left. }
  assert (Hlen : (0 <? length (getModelsWithCustom (customModels st ++ [entry])))%nat = true).
  { rewrite merged_length. reflexivity. }
  unfold synced.
  destruct (isPuterAvailable window) eqn:Hsdk; state_fields.
  - rewrite Hlen, merged_labels, merged_formatted.
    split; [split; [done | apply last_snoc_settings]|].
    do 4 (split; [done|]). split; [done|].
    intros _ ->. state_fields.
    rewrite map_app. apply elem_of_app; right.
    unfold global_entries. rewrite map_map. cbn [g_id global_entry].
    apply list_elem_of_fmap in Hlisted as (m & Hm & Hin).
    apply list_elem_of_fmap. exists m. by rewrite Hm.
  - split; [split; [done | apply last_snoc_settings]|].
    do 4 (split; [done|]). split; discriminate.
Qed.

Lemma tidy_snoc cs m :
  tidy cs → cm_id m ∉ map cm_id cs → tidy_id (cm_id m) →
  tidy_endpoint (cm_endpoint m) → tidy (cs ++ [m]).
Proof.
  intros [Hdistinct Hall] Hfresh Hid He. split.
  - rewrite map_app. apply NoDup_app. split; [done|]. split.
    + intros i Hi Hin. cbn in Hin. apply list_elem_of_singleton in Hin as ->. done.
    + cbn. apply NoDup_singleton.
  - apply Forall_app. split; [done|]. by constructor.
Qed.

(** X18: [addCustomModel] keeps a custom list tidy: if its ids are non-empty,
    trimmed and pairwise distinct and its endpoints are absent or
    non-empty and trimmed, the same holds after any attempted
    addition. *)
Theorem addCustomModel_keeps_tidy st :
  tidy (customModels st) →
  tidy (customModels (exec (addCustomModel window baseModels tr) st)).
Proof.
  intros Htidy.
  destruct (decide (trim (newCustomModelId st) = [])) as [Hnil|Hne];
    [by rewrite addCustomModel_rejected by auto|].
  destruct (decide (trim (newCustomModelId st) ∈ map cm_id (customModels st)))
    as [Hin|Hnin]; [by rewrite addCustomModel_rejected by auto|].
  rewrite addCustomModel_accepted by done.
  unfold exec. rewrite saveCustomModels_run, refreshModels_run. cbn [fst].
  rewrite refreshGlobalModels_run. cbn [fst].
  assert (Hgoal : tidy (customModels st
                        ++ [{| cm_id := trim (newCustomModelId st);
                               cm_endpoint :=
                                 or_undefined (trim (newCustomModelEndpoint st)) |}])).
  { apply tidy_snoc; cbn; [done | done | by apply trim_tidy
                           | apply or_undefined_trim_tidy]. }
  destruct (isPuterAvailable window); exact Hgoal.
Qed.


Lemma removeCustomModel_run modelId st :
  exec (removeCustomModel window baseModels tr modelId) st
    = add_toast (toast_success (tr (lit "Custom model removed")))
        (exec (refreshGlobalModels window baseModels)
           (exec (refreshModels window)
              (exec saveCustomModels
                 (set_customModels
                    (List.filter (λ m, negb (bool_decide (cm_id m = modelId)))
                       (customModels st))
                    st)))).
Proof.
  unfold removeCustomModel. run_action.
  unfold refreshModels. destruct (isPuterAvailable window); reflexivity.
Qed.

Lemma remove_filter modelId (cs : list CustomModel) :
  List.filter (λ m, negb (bool_decide (cm_id m = modelId))) cs
  = filter (λ m, cm_id m ≠ modelId) cs.
Proof.
  apply List_filter_decide. intros m.
  rewrite negb_true_iff, bool_decide_eq_false. done.
Qed.

(** What the three steps after a change of the custom list leave of it. *)
Lemma saved_and_refreshed st :
  let st' := exec (refreshGlobalModels window baseModels)
               (exec (refreshModels window) (exec saveCustomModels st)) in
  customModels st' = customModels st
  ∧ settings st'
    = {| s_puterEnabled := s_puterEnabled (settings st);
         s_puterCustomModels := Some (map StoredObject (customModels st)) |}
  ∧ userSettingsUpdates st' = userSettingsUpdates st ++ [settings st']
  ∧ toasts st' = toasts st
  ∧ puterEnabled st' = puterEnabled st.
Proof.
  cbn zeta. unfold exec.
  rewrite saveCustomModels_run, refreshModels_run. cbn [fst].
  rewrite refreshGlobalModels_run. cbn [fst].
  destruct (isPuterAvailable window); state_fields; done.
Qed.

Lemma tidy_filter (P : CustomModel → Prop) `{∀ m, Decision (P m)} cs :
  tidy cs → tidy (filter P cs).
Proof.
  intros [Hdistinct Hall]. split.
  - clear Hall. induction cs as [|m l IH]; [constructor|].
    cbn [map] in Hdistinct. apply NoDup_cons in Hdistinct as [Hm Hl].
    rewrite filter_cons. destruct (decide (P m)); [|by apply IH].
    cbn [map]. apply NoDup_cons. split; [|by apply IH].
    intros Hin. apply Hm. apply list_elem_of_fmap in Hin as (m' & Heq & Hm').
    apply list_elem_of_filter in Hm' as [_ Hm']. apply list_elem_of_fmap. eauto.
  - apply Forall_forall. intros m Hm.
    apply list_elem_of_filter in Hm as [_ Hm].
    revert Hall. rewrite Forall_forall. auto.
Qed.

Lemma filter_keeps_all {A} (P : A → Prop) `{∀ x, Decision (P x)} (l : list A) :
  (∀ x, x ∈ l → P x) → filter P l = l.
Proof.
  induction l as [|x l IH]; intros Hall; [done|].
  rewrite filter_cons, decide_True by (apply Hall; apply elem_of_cons; by left).
  f_equal. apply IH. intros y Hy. apply Hall. apply elem_of_cons. by right.
Qed.

(** X19: [removeCustomModel] keeps, in order, the entries with another id,
    so the id is in the list no more; removing an id that is not there
    leaves the list as it is, and still writes the settings and reports
    success; afterwards the settings store holds the custom list; a tidy
    list stays tidy. *)
Theorem removeCustomModel_removes modelId st :
  let st' := exec (removeCustomModel window baseModels tr modelId) st in
  customModels st' = filter (λ m, cm_id m ≠ modelId) (customModels st)
  ∧ (modelId ∉ map cm_id (customModels st'))
  ∧ (modelId ∉ map cm_id (customModels st) →
     customModels st' = customModels st)
  ∧ synced st'
  ∧ userSettingsUpdates st' = userSettingsUpdates st ++ [settings st']
  ∧ toasts st'
    = toasts st ++ [toast_success (tr (lit "Custom model removed"))]
  ∧ (tidy (customModels st) → tidy (customModels st')).
Proof.
  cbn zeta. rewrite removeCustomModel_run, remove_filter.
  set (st1 := set_customModels
                (filter (λ m, cm_id m ≠ modelId) (customModels st)) st).
  destruct (saved_and_refreshed st1) as (Hcs & Hset & Hupd & Htoast & _).
  unfold synced. state_fields. rewrite Hcs, Hupd, Htoast, Hset.
  subst st1. state_fields.
  split; [done|]. split.
  { intros Hin. apply list_elem_of_fmap in Hin as (m & Hm & Hin).
    apply list_elem_of_filter in Hin as [Hne _]. done. }
  split.
  { intros Habsent. apply filter_keeps_all. intros m Hm Heq.
    apply Habsent. apply list_elem_of_fmap. eauto. }
  split; [split; [done | apply last_snoc_settings]|].
  split; [done|]. split; [done|].
  apply tidy_filter.
Qed.

(** X20: removing the id that an accepted addition has just added gives
    back the custom list from before the addition. *)
Theorem add_then_remove st :
  trim (newCustomModelId st) ≠ [] →
  trim (newCustomModelId st) ∉ map cm_id (customModels st) →
  customModels
    (exec (removeCustomModel window baseModels tr (trim (newCustomModelId st)))
       (exec (addCustomModel window baseModels tr) st))
  = customModels st.
Proof.
  intros Hne Hnin. rewrite removeCustomModel_run, remove_filter.
  match goal with
  | |- customModels (add_toast _ (exec _ (exec _ (exec _ ?s)))) = _ =>
      destruct (saved_and_refreshed s) as (Hcs & _)
  end.
  state_fields. rewrite Hcs. state_fields.
  rewrite addCustomModel_accepted by done.
  match goal with
  | |- context [customModels (add_toast _ (exec _ (exec _ (exec _ ?s))))] =>
      destruct (saved_and_refreshed s) as (Hcs' & _)
  end.
  state_fields. rewrite Hcs'. state_fields.
  rewrite filter_app, filter_cons. cbn [cm_id].
  rewrite decide_False by (intros Hkeep; by apply Hkeep). cbn.
  rewrite app_nil_r. apply filter_keeps_all. intros m Hm Heq.
  apply Hnin. apply list_elem_of_fmap. eauto.
Qed.


Lemma saveEnabled_run st :
  saveEnabled st =
    (add_changeEvent (puterEnabled st)
       (add_userSettingsUpdate
          {| s_puterEnabled := Some (puterEnabled st);
             s_puterCustomModels := s_puterCustomModels (settings st) |}
          (set_settings
             {| s_puterEnabled := Some (puterEnabled st);
                s_puterCustomModels := s_puterCustomModels (settings st) |}
             st)),
     Returns tt).
Proof. reflexivity. Qed.

(** X21: switching the provider off stores the base list as the global model
    list, empties the list of available models, writes [puterEnabled:
    false] into the settings (leaving the stored custom list alone), sends
    these settings once, dispatches one ['change'] event with [false],
    shows no notification and does not sign the user out. *)
Theorem handleToggle_off st :
  puterEnabled st = false →
  let st' := exec (handleToggle window baseModels tr) st in
  models st' = baseModels
  ∧ availableModels st' = []
  ∧ settings st'
    = {| s_puterEnabled := Some false;
         s_puterCustomModels := s_puterCustomModels (settings st) |}
  ∧ userSettingsUpdates st' = userSettingsUpdates st ++ [settings st']
  ∧ changeEvents st' = changeEvents st ++ [false]
  ∧ toasts st' = toasts st
  ∧ puterSignedIn st' = puterSignedIn st.
Proof.
  intros Hoff. cbn zeta. unfold handleToggle. run_action. rewrite Hoff.
  rewrite refreshGlobalModels_run. cbn [fst].
  rewrite saveEnabled_run. state_fields. rewrite Hoff. done.
Qed.

End ControllerMore.

Section ControllerWithSdk.

Variable puter : Puter.
Variable baseModels : list GlobalModel.
Variable tr : jsstring → jsstring.
Variable typeErrorMessage : jsstring.

(** X22: switching the provider on with the SDK present writes
    [puterEnabled: true], sends the settings once and dispatches ['change']
    with [true], with no notification. The global model list and the list
    of available models are rebuilt only if the SDK says the user is signed
    in; otherwise they stay as they were. *)
Theorem handleToggle_on st :
  puterEnabled st = true →
  let st' := exec (handleToggle (Some puter) baseModels tr) st in
  settings st'
    = {| s_puterEnabled := Some true;
         s_puterCustomModels := s_puterCustomModels (settings st) |}
  ∧ userSettingsUpdates st' = userSettingsUpdates st ++ [settings st']
  ∧ changeEvents st' = changeEvents st ++ [true]
  ∧ toasts st' = toasts st
  ∧ (auth_isSignedIn (auth puter) = false →
     models st' = models st
     ∧ availableModels st' = availableModels st
     ∧ puterSignedIn st' = puterSignedIn st)
  ∧ (auth_isSignedIn (auth puter) = true →
     puterSignedIn st' = true
     ∧ models st'
       = baseModels ++ global_entries (getModelsWithCustom (customModels st))
     ∧ availableModels st'
       = map id (getModelsWithCustom (customModels st))).
Proof.
  intros Hon. cbn zeta.
  assert (Hlen : (0 <? length (getModelsWithCustom (customModels st)))%nat = true).
  { rewrite merged_length. reflexivity. }
  unfold handleToggle. run_handler. rewrite Hon.
  unfold getUser, isSignedIn.
  cbn [negb getPuter mbind completion_bind bind mret completion_ret isPuterAvailable].
  destruct (auth_isSignedIn (auth puter)) eqn:Hin;
    cbn [negb]; [|rewrite saveEnabled_run; state_fields; rewrite Hon;
                   repeat split; done].
  destruct (auth_getUser (auth puter)) as [u|e];
    cbn [try_catch mbind completion_bind bind];
    rewrite refreshModels_run; cbn [fst snd isPuterAvailable];
    rewrite refreshGlobalModels_run; cbn [fst snd];
    rewrite saveEnabled_run; state_fields;
    rewrite Hon; cbn [isPuterAvailable andb];
    rewrite Hlen, merged_formatted, merged_labels;
    repeat split; done.
Qed.

(** X25: when the sign-in succeeds, [handleSignIn] sets the sign-in flag,
    reports success, lists the merged catalog as available and rebuilds the
    global list as [refreshGlobalModels] does; the user store gets the
    user's name and email when the fetch gives a user, and keeps its old
    value when it gives none. *)
Theorem handleSignIn_success (window : Window) st :
  signIn window = Returns true →
  let st' := exec (handleSignIn window baseModels tr typeErrorMessage) st in
  puterSignedIn st' = true
  ∧ toasts st' = toasts st ++ [toast_success (tr (lit "Signed in with Puter"))]
  ∧ models st' = models (exec (refreshGlobalModels window baseModels) st)
  ∧ availableModels st' = map id (getModelsWithCustom (customModels st))
  ∧ (∀ u, getUser window = Returns (Some u) →
          puterUser st' = Some (username u, email u))
  ∧ (getUser window = Returns None → puterUser st' = puterUser st).
Proof.
  intros Hin. cbn zeta.
  assert (Hsdk : isPuterAvailable window = true).
  { destruct window; [done | discriminate Hin]. }
  unfold handleSignIn. run_handler. rewrite Hin.
  destruct (getUser_returns window) as [u Hu]. rewrite Hu.
  destruct u as [u|]; rewrite refreshModels_run; cbn [fst snd];
    rewrite !refreshGlobalModels_run; cbn [fst snd];
    rewrite Hsdk; state_fields; rewrite merged_labels;
    repeat split; try done; congruence.
Qed.

Lemma saveEndpoint_run index p m :
  customModels (component p) !! index = Some m →
  saveEndpoint tr index p =
    (let edited := {| cm_id := cm_id m;
                      cm_endpoint := or_undefined (trim (editingEndpoint p)) |} in
     let cs := <[index := edited]> (customModels (component p)) in
     let s := {| s_puterEnabled := s_puterEnabled (settings (component p));
                 s_puterCustomModels := Some (map StoredObject cs) |} in
     {| component :=
          add_toast (toast_success (tr (lit "Endpoint updated")))
            (add_userSettingsUpdate s
               (set_settings s (set_customModels cs (component p))));
        showCustomModels := showCustomModels p;
        editingModelIndex := None;
        editingEndpoint := [] |},
     Returns tt).
Proof. intros Hm. unfold saveEndpoint. rewrite Hm. reflexivity. Qed.

Lemma insert_same_id (cs : list PuterCustomModel) index m e :
  cs !! index = Some m →
  map cm_id (<[index := {| cm_id := cm_id m; cm_endpoint := e |}]> cs)
  = map cm_id cs.
Proof.
  intros Hm. change (map cm_id) with (fmap (M:=list) cm_id).
  rewrite list_fmap_insert. cbn [cm_id]. apply list_insert_id.
  by rewrite list_lookup_fmap, Hm.
Qed.

Lemma tidy_insert (cs : list PuterCustomModel) index m e :
  cs !! index = Some m → tidy_endpoint e → tidy cs →
  tidy (<[index := {| cm_id := cm_id m; cm_endpoint := e |}]> cs).
Proof.
  intros Hm He [Hdistinct Hall]. split.
  - by rewrite insert_same_id.
  - apply Forall_insert; [done|]. cbn. split; [|done].
    revert Hall. rewrite Forall_forall. intros Hall.
    apply (Hall m). by apply list_elem_of_lookup_2 with index.
Qed.

(** X27: saving an endpoint at an index of the custom list replaces the
    endpoint of that entry by the trimmed input, or by none when the input
    is blank, and leaves the other entries and all ids as they are; the
    settings are written and hold the new list; the editor is closed; the
    global model list is not rebuilt; a tidy list stays tidy. *)
Theorem saveEndpoint_updates index p m :
  customModels (component p) !! index = Some m →
  let p' := fst (saveEndpoint tr index p) in
  snd (saveEndpoint tr index p) = Returns tt
  ∧ customModels (component p') !! index
    = Some {| cm_id := cm_id m;
              cm_endpoint := or_undefined (trim (editingEndpoint p)) |}
  ∧ (∀ j, j ≠ index →
          customModels (component p') !! j = customModels (component p) !! j)
  ∧ map cm_id (customModels (component p'))
    = map cm_id (customModels (component p))
  ∧ synced (component p')
  ∧ editingModelIndex p' = None
  ∧ editingEndpoint p' = []
  ∧ models (component p') = models (component p)
  ∧ (tidy (customModels (component p)) → tidy (customModels (component p'))).
Proof.
  intros Hm. cbn zeta. rewrite (saveEndpoint_run index p m Hm).
  cbn [fst snd component editingModelIndex editingEndpoint]. unfold synced.
  state_fields.
  split; [done|]. split.
  { apply list_lookup_insert_eq. by apply lookup_lt_Some with m. }
  split; [intros j Hj; by apply list_lookup_insert_ne|].
  split; [by apply insert_same_id|].
  split; [split; [done | apply last_snoc_settings]|].
  do 3 (split; [done|]).
  apply tidy_insert; [done | apply or_undefined_trim_tidy].
Qed.

(** X28: at an index past the end of the custom list, [saveEndpoint] throws
    and changes nothing, and [startEditEndpoint] throws with the component
    unchanged, after it has recorded the index as the one being
    edited. *)
Theorem edit_out_of_range index p :
  (length (customModels (component p)) ≤ index)%nat →
  saveEndpoint tr index p = (p, Throws TypeError)
  ∧ snd (startEditEndpoint index p) = Throws TypeError
  ∧ component (fst (startEditEndpoint index p)) = component p
  ∧ editingModelIndex (fst (startEditEndpoint index p)) = Some index.
Proof.
  intros Hout.
  assert (Hnone : customModels (component p) !! index
                  = (None : option PuterCustomModel))
    by (by apply lookup_ge_None).
  unfold saveEndpoint, startEditEndpoint. rewrite Hnone. done.
Qed.

Lemma tidy_endpoint_round e :
  tidy_endpoint e → or_undefined (trim (opt_or_else e [])) = e.
Proof.
  destruct e as [s|]; [|by intros _].
  intros [Hne Htrim]. cbn. rewrite or_else_filled by done.
  rewrite Htrim. unfold or_undefined. by destruct s.
Qed.

(** X29: opening the editor on an entry loads its endpoint (the empty string
    when it has none); saving at once leaves the custom list as it was, for
    an entry whose endpoint is tidy; cancelling leaves the component as it
    was. *)
Theorem edit_without_change index p m :
  customModels (component p) !! index = Some m →
  tidy_endpoint (cm_endpoint m) →
  let editing := fst (startEditEndpoint index p) in
  editingModelIndex editing = Some index
  ∧ editingEndpoint editing = default [] (cm_endpoint m)
  ∧ customModels (component (fst (saveEndpoint tr index editing)))
    = customModels (component p)
  ∧ component (cancelEditEndpoint editing) = component p.
Proof.
  intros Hm He. cbn zeta. unfold startEditEndpoint. rewrite Hm.
  cbn [fst component editingModelIndex editingEndpoint cancelEditEndpoint].
  split; [done|]. split.
  { destruct (cm_endpoint m) as [s|]; [|done]. destruct He as [Hne _].
    cbn. by apply or_else_filled. }
  split; [|done].
  erewrite saveEndpoint_run by (cbn [component]; exact Hm).
  cbn [fst component editingEndpoint]. state_fields.
  rewrite tidy_endpoint_round by done.
  apply list_insert_id. transitivity (Some m); [exact Hm | by destruct m].
Qed.

End ControllerWithSdk.

(** X30: [onMount] only loads: it never raises, writes no settings, shows no
    notification and does not rebuild the global model list. [puterEnabled]
    is taken from the settings when they have it; the custom list is the
    migrated stored array, with the stored ids in the stored order, or is
    left alone when nothing is stored; the sign-in flag is set when the SDK
    is present and says so, and is never cleared. *)
Theorem onMount_only_loads (window : Window) st :
  let st' := exec (onMount window) st in
  snd (onMount window st) = Returns tt
  ∧ settings st' = settings st
  ∧ userSettingsUpdates st' = userSettingsUpdates st
  ∧ toasts st' = toasts st
  ∧ models st' = models st
  ∧ changeEvents st' = changeEvents st
  ∧ puterEnabled st' = default (puterEnabled st) (s_puterEnabled (settings st))
  ∧ customModels st'
    = match s_puterCustomModels (settings st) with
      | Some stored => map migrate stored
      | None => customModels st
      end
  ∧ (∀ stored, s_puterCustomModels (settings st) = Some stored →
               map cm_id (customModels st') = map stored_id stored)
  ∧ (puterSignedIn st' = true ↔
     puterSignedIn st = true ∨ isSignedIn window = Returns true).
Proof.
  cbn zeta.
  assert (Hids : ∀ stored, map cm_id (map migrate stored) = map stored_id stored).
  { intros stored. rewrite map_map. apply map_ext. by intros []. }
  unfold onMount. run_handler. unfold getUser, isSignedIn.
  destruct (settings st) as [[b|] [stored|]] eqn:Hset;
    cbn [s_puterEnabled s_puterCustomModels];
    destruct window as [sdk|];
    cbn [isPuterAvailable negb getPuter mbind completion_bind bind mret
         completion_ret action_ret act_ret];
    try (destruct (auth_isSignedIn (auth sdk)) eqn:Hin; cbn [negb]);
    try (destruct (auth_getUser (auth sdk)) as [usr|e];
         cbn [try_catch mbind completion_bind bind]);
    state_fields;
    try (destruct b; cbn [default]);
    try (destruct (puterEnabled st) eqn:Hen);
    try rewrite !refreshModels_run; cbn [fst snd isPuterAvailable];
    state_fields; rewrite ?Hset, ?Hen;
    repeat split; try done; try (intros ? [= <-]; apply Hids);
    try tauto; try (intros [?|?]; congruence); auto.
Qed.

(* ===================================================================== *)
(** ** The further properties at concrete inputs *)
(* ===================================================================== *)

Lemma chat_stream_failure_witness :
  chat (Some (Samples.sdk true (Returns MoreSamples.failing_stream))) []
       Samples.no_options NotCancelled
    = Returns (map OnToken
                 (tokens [Samples.chunk "a"; {| text := None |};
                          Samples.chunk "b"])
               ++ [OnError (Error (lit "connection lost"))]).
Proof.
  apply (chat_stream_failure
           (Samples.sdk true (Returns MoreSamples.failing_stream)) []
           Samples.no_options
           [Samples.chunk "a"; {| text := None |}; Samples.chunk "b"]
           (Error (lit "connection lost"))).
  reflexivity.
Defined.

Lemma chat_cancel_position_witness :
  ∃ trace,
    chat (Some (Samples.sdk true (Returns MoreSamples.failing_stream))) []
         Samples.no_options (DuringNext 2) = Returns trace
    ∧ Aborted ∈ trace
    ∧ delivered trace
      = tokens (take 2 [Samples.chunk "a"; {| text := None |};
                        Samples.chunk "b"])
    ∧ before_abort trace
      = map OnToken
          (tokens (take 2 [Samples.chunk "a"; {| text := None |};
                           Samples.chunk "b"])).
Proof.
  apply (chat_cancel_position
           (Samples.sdk true (Returns MoreSamples.failing_stream)) []
           Samples.no_options
           [Samples.chunk "a"; {| text := None |}; Samples.chunk "b"]
           (Fails (Error (lit "connection lost"))) 2).
  - reflexivity.
  - cbn. lia.
Defined.

Lemma chat_failure_when_cancelled_witness :
  chat (Some MoreSamples.sdk_auth_fails) [] Samples.no_options NotCancelled
    = Returns [OnError (Error (lit "offline"))]
  ∧ chat (Some MoreSamples.sdk_auth_fails) [] Samples.no_options DuringCall
    = Returns [Aborted]
  ∧ chat (Some (Samples.sdk true (Returns Samples.error_payload))) []
         Samples.no_options DuringCall
    = Returns [Aborted]
  ∧ chat (Some (Samples.sdk true (Returns MoreSamples.failing_stream))) []
         Samples.no_options (DuringNext 3)
    = Returns [OnToken (lit "a"); OnToken (lit "b"); Aborted].
Proof.
  destruct (chat_failure_when_cancelled MoreSamples.sdk_auth_fails []
              Samples.no_options) as (Hreject & _).
  destruct (chat_failure_when_cancelled
              (Samples.sdk true (Returns Samples.error_payload)) []
              Samples.no_options) as (_ & Hpayload & _).
  destruct (chat_failure_when_cancelled
              (Samples.sdk true (Returns MoreSamples.failing_stream)) []
              Samples.no_options) as (_ & _ & Hstream).
  split; [apply (Hreject (Error (lit "offline"))); reflexivity|].
  split; [apply (Hreject (Error (lit "offline"))); reflexivity|].
  split.
  - apply (Hpayload {| error := Some {| err_message := None;
                                        err_code := Some (lit "rate_limited") |} |}).
    reflexivity.
  - apply (Hstream [Samples.chunk "a"; {| text := None |}; Samples.chunk "b"]
             (Error (lit "connection lost"))).
    reflexivity.
Defined.

Lemma chat_error_payload_message_witness :
  ∃ m,
    chat (Some (Samples.sdk true (Returns Samples.error_payload))) []
         Samples.no_options NotCancelled = Returns [OnError (Error m)]
    ∧ m = lit "rate_limited".
Proof.
  destruct (chat_error_payload_message
              (Samples.sdk true (Returns Samples.error_payload)) []
              Samples.no_options
              {| error := Some {| err_message := None;
                                  err_code := Some (lit "rate_limited") |} |}
              eq_refl)
    as (m & Hrun & _ & _ & Hcode & _).
  exists m. split; [exact Hrun|].
  apply Hcode; [by left | split; [reflexivity | discriminate]].
Defined.

Lemma chatSync_result_witness :
  chatSync (Some (Samples.sdk true (Returns Samples.whole_reply))) []
           Samples.no_options
    = Returns {| cr_text := lit "  A short title  "; cr_usage := None |}
  ∧ chatSync (Some MoreSamples.sdk_auth_fails) [] Samples.no_options
    = Throws (Error (lit "offline"))
  ∧ chatSync (Some (Samples.sdk true (Returns Samples.stream_ab))) []
             Samples.no_options
    = Throws TypeError.
Proof.
  split; [|split].
  - apply (proj1 (chatSync_result
                    (Samples.sdk true (Returns Samples.whole_reply)) []
                    Samples.no_options)).
    eexists. split; reflexivity.
  - apply (proj1 (proj2 (chatSync_result MoreSamples.sdk_auth_fails []
                           Samples.no_options))).
    reflexivity.
  - apply (proj2 (proj2 (chatSync_result
                           (Samples.sdk true (Returns Samples.stream_ab)) []
                           Samples.no_options)) Samples.stream_ab).
    + reflexivity.
    + discriminate.
Defined.

Lemma generateTitle_clean_witness :
  starts_clean (lit "A short title")
  ∧ ((length (lit "A short title") < 100)%nat
     → ends_clean (lit "A short title")).
Proof.
  apply (generateTitle_clean
           (Some (Samples.sdk true (Returns Samples.whole_reply)))
           (lit "hello") (lit "hi")).
  vm_compute. reflexivity.
Defined.

Lemma merged_entries_tidy_witness :
  tidy_id (lit "acme:m1")
  ∧ ∃ n, Some (lit "acme:m1") = Some n ∧ n ≠ [].
Proof.
  apply (merged_entries_tidy [Samples.custom " acme:m1 "]
           {| id := lit "acme:m1"; name := Some (lit "acme:m1");
              provider := Some (lit " acme"); endpoint := None |}).
  apply list_elem_of_In. vm_compute. do 21 right. left. reflexivity.
Defined.

Lemma merged_ids_distinct_witness :
  NoDup (map id (getModelsWithCustom
                   [Samples.custom "acme:m1"; Samples.custom " gpt-4o";
                    Samples.custom "m2"])).
Proof.
  apply merged_ids_distinct.
  apply (bool_decide_eq_true_1
           (NoDup (map (λ m, trim (cm_id m))
                     [Samples.custom "acme:m1"; Samples.custom " gpt-4o";
                      Samples.custom "m2"]))).
  vm_compute. reflexivity.
Defined.

Lemma merged_ignores_dropped_witness :
  getModelsWithCustom
    ([Samples.custom "acme:m1"] ++ Samples.custom " gpt-4o "
       :: [Samples.custom "m2"])
  = getModelsWithCustom ([Samples.custom "acme:m1"] ++ [Samples.custom "m2"]).
Proof.
  apply merged_ignores_dropped. right.
  apply list_elem_of_In. vm_compute. left. reflexivity.
Defined.

Lemma two_models_tidy : tidy (customModels MoreSamples.two_models).
Proof.
  split.
  - apply (bool_decide_eq_true_1
             (NoDup (map cm_id (customModels MoreSamples.two_models)))).
    vm_compute. reflexivity.
  - repeat constructor; try discriminate; vm_compute; reflexivity.
Qed.

Lemma refreshGlobalModels_enabled_witness :
  let w := Some (Samples.sdk false (Returns Samples.whole_reply)) in
  let st' := exec (refreshGlobalModels w [Samples.other_model])
               MoreSamples.two_models in
  models st'
    = [Samples.other_model]
      ++ global_entries
           (getModelsWithCustom (customModels MoreSamples.two_models))
  ∧ length (models st') = 24%nat.
Proof.
  cbn zeta.
  destruct (refreshGlobalModels_enabled
              (Some (Samples.sdk false (Returns Samples.whole_reply)))
              [Samples.other_model] MoreSamples.two_models eq_refl eq_refl)
    as [Hlist Hlen].
  split; [exact Hlist|]. rewrite Hlen. vm_compute. reflexivity.
Defined.

Lemma refreshModels_lists_merged_witness :
  availableModels
    (exec (refreshModels (Some (Samples.sdk false (Returns Samples.whole_reply))))
       MoreSamples.two_models)
    = curated_ids ++ [lit "acme:m1"; lit "m2"]
  ∧ exec (refreshModels None) MoreSamples.two_models = MoreSamples.two_models.
Proof.
  split.
  - destruct (proj1 (refreshModels_lists_merged
                       (Some (Samples.sdk false (Returns Samples.whole_reply)))
                       MoreSamples.two_models) eq_refl) as [Hlist _].
    rewrite Hlist. vm_compute. reflexivity.
  - apply (proj2 (refreshModels_lists_merged None MoreSamples.two_models)).
    reflexivity.
Defined.

Lemma refreshClicked_consistent_witness :
  let w := Some (Samples.sdk false (Returns Samples.whole_reply)) in
  let st' := exec (refreshClicked w [Samples.other_model])
               MoreSamples.two_models in
  map g_id (models st')
    = map g_id [Samples.other_model]
      ++ map (λ i, lit "puter/" ++ i) (availableModels st').
Proof.
  apply (refreshClicked_consistent
           (Some (Samples.sdk false (Returns Samples.whole_reply)))
           [Samples.other_model] MoreSamples.two_models);
    reflexivity.
Defined.

Lemma addCustomModel_persists_witness :
  let w := Some (Samples.sdk false (Returns Samples.whole_reply)) in
  let st := Samples.panel true [Samples.custom "my-model"] " other:m " in
  let st' := exec (addCustomModel w [Samples.other_model] Samples.same) st in
  synced st'
  ∧ newCustomModelId st' = []
  ∧ lit "other:m" ∈ availableModels st'
  ∧ lit "puter/other:m" ∈ map g_id (models st').
Proof.
  cbn zeta.
  destruct (addCustomModel_persists
              (Some (Samples.sdk false (Returns Samples.whole_reply)))
              [Samples.other_model] Samples.same
              (Samples.panel true [Samples.custom "my-model"] " other:m "))
    as (Hsync & _ & _ & Hid & _ & Hlisted & Hglobal).
  - vm_compute. discriminate.
  - rewrite list_elem_of_In. vm_compute. intros [Heq|[]]. discriminate Heq.
  - split; [exact Hsync|]. split; [exact Hid|].
    split; [apply Hlisted; reflexivity | apply Hglobal; reflexivity].
Defined.

Lemma addCustomModel_keeps_tidy_witness :
  tidy (customModels
          (exec (addCustomModel None [] Samples.same)
             (set_newCustomModelId (lit " m3 ") MoreSamples.two_models))).
Proof.
  apply (addCustomModel_keeps_tidy None [] Samples.same
           (set_newCustomModelId (lit " m3 ") MoreSamples.two_models)).
  exact two_models_tidy.
Defined.

Lemma removeCustomModel_removes_witness :
  let st' := exec (removeCustomModel None [] Samples.same (lit "m9"))
               MoreSamples.two_models in
  customModels st' = customModels MoreSamples.two_models
  ∧ tidy (customModels st')
  ∧ synced st'.
Proof.
  cbn zeta.
  destruct (removeCustomModel_removes None [] Samples.same (lit "m9")
              MoreSamples.two_models)
    as (_ & _ & Habsent & Hsync & _ & _ & Htidy).
  split; [|split; [apply Htidy; exact two_models_tidy | exact Hsync]].
  apply Habsent. rewrite list_elem_of_In. vm_compute.
  intros [Heq|[Heq|[]]]; discriminate Heq.
Defined.

Lemma add_then_remove_witness :
  let st := Samples.panel true [Samples.custom "my-model"] " other:m " in
  customModels
    (exec (removeCustomModel None [] Samples.same (trim (newCustomModelId st)))
       (exec (addCustomModel None [] Samples.same) st))
  = customModels st.
Proof.
  apply (add_then_remove None [] Samples.same
           (Samples.panel true [Samples.custom "my-model"] " other:m ")).
  - vm_compute. discriminate.
  - rewrite list_elem_of_In. vm_compute. intros [Heq|[]]. discriminate Heq.
Defined.

Lemma handleToggle_off_witness :
  let w := Some (Samples.sdk true (Returns Samples.whole_reply)) in
  let st := Samples.panel false [Samples.custom "my-model"] "" in
  let st' := exec (handleToggle w [Samples.other_model] Samples.same) st in
  models st' = [Samples.other_model]
  ∧ availableModels st' = []
  ∧ settings st'
    = {| s_puterEnabled := Some false;
         s_puterCustomModels := s_puterCustomModels (settings st) |}
  ∧ userSettingsUpdates st' = userSettingsUpdates st ++ [settings st']
  ∧ changeEvents st' = changeEvents st ++ [false]
  ∧ toasts st' = toasts st
  ∧ puterSignedIn st' = puterSignedIn st.
Proof.
  apply (handleToggle_off
           (Some (Samples.sdk true (Returns Samples.whole_reply)))
           [Samples.other_model] Samples.same
           (Samples.panel false [Samples.custom "my-model"] "")).
  reflexivity.
Defined.

Lemma handleToggle_on_witness :
  let st := Samples.panel true [Samples.custom "my-model"] "" in
  let st' := exec (handleToggle
                     (Some (Samples.sdk false (Returns Samples.whole_reply)))
                     [Samples.other_model] Samples.same) st in
  s_puterEnabled (settings st') = Some true
  ∧ models st' = models st
  ∧ changeEvents st' = [true].
Proof.
  cbn zeta.
  destruct (handleToggle_on (Samples.sdk false (Returns Samples.whole_reply))
              [Samples.other_model] Samples.same
              (Samples.panel true [Samples.custom "my-model"] "") eq_refl)
    as (Hset & _ & Hchange & _ & Hout & _).
  split; [by rewrite Hset|]. split; [apply Hout; reflexivity | exact Hchange].
Defined.

Lemma handleSignIn_success_witness :
  let w := Some (Samples.sdk true (Returns Samples.whole_reply)) in
  let st := Samples.panel true [] "" in
  let st' := exec (handleSignIn w [Samples.other_model] Samples.same
                     (lit "undefined")) st in
  puterSignedIn st' = true
  ∧ puterUser st' = Some (lit "ada", None)
  ∧ length (models st') = 22%nat.
Proof.
  cbn zeta.
  destruct (handleSignIn_success [Samples.other_model] Samples.same
              (lit "undefined")
              (Some (Samples.sdk true (Returns Samples.whole_reply)))
              (Samples.panel true [] "") eq_refl)
    as (Hin & _ & Hmodels & _ & Huser & _).
  split; [exact Hin|]. split.
  - apply (Huser Samples.ada). reflexivity.
  - rewrite Hmodels. vm_compute. reflexivity.
Defined.

Lemma saveEndpoint_updates_witness :
  let p := {| component := MoreSamples.two_models;
              showCustomModels := true;
              editingModelIndex := Some 0%nat;
              editingEndpoint := lit "   " |} in
  let p' := fst (saveEndpoint Samples.same 0 p) in
  customModels (component p') = [Samples.custom "acme:m1"; Samples.custom "m2"]
  ∧ synced (component p')
  ∧ editingModelIndex p' = None.
Proof.
  cbn zeta.
  destruct (saveEndpoint_updates Samples.same 0
              {| component := MoreSamples.two_models;
                 showCustomModels := true;
                 editingModelIndex := Some 0%nat;
                 editingEndpoint := lit "   " |}
              (MoreSamples.with_endpoint "acme:m1" "https://acme.example/v1")
              eq_refl)
    as (_ & _ & _ & _ & Hsync & Hclosed & _).
  split; [vm_compute; reflexivity|]. split; [exact Hsync | exact Hclosed].
Defined.

Lemma edit_out_of_range_witness :
  let p := opened MoreSamples.two_models in
  saveEndpoint Samples.same 5 p = (p, Throws TypeError)
  ∧ snd (startEditEndpoint 5 p) = Throws TypeError
  ∧ component (fst (startEditEndpoint 5 p)) = component p
  ∧ editingModelIndex (fst (startEditEndpoint 5 p)) = Some 5%nat.
Proof.
  apply (edit_out_of_range Samples.same 5 (opened MoreSamples.two_models)).
  cbn. lia.
Defined.

Lemma edit_without_change_witness :
  let p := opened MoreSamples.two_models in
  let editing := fst (startEditEndpoint 0 p) in
  editingModelIndex editing = Some 0%nat
  ∧ editingEndpoint editing
    = default [] (Some (lit "https://acme.example/v1"))
  ∧ customModels (component (fst (saveEndpoint Samples.same 0 editing)))
    = customModels (component p)
  ∧ component (cancelEditEndpoint editing) = component p.
Proof.
  apply (edit_without_change Samples.same 0 (opened MoreSamples.two_models)
           (MoreSamples.with_endpoint "acme:m1" "https://acme.example/v1")).
  - reflexivity.
  - split; [discriminate | vm_compute; reflexivity].
Defined.

Lemma onMount_only_loads_witness :
  let st := created false false None [Samples.other_model]
              {| s_puterEnabled := Some true;
                 s_puterCustomModels :=
                   Some [LegacyString (lit "foo");
                         StoredObject (Samples.custom "bar")] |} in
  let st' := exec (onMount (Some (Samples.sdk true (Returns Samples.whole_reply))))
               st in
  map cm_id (customModels st') = [lit "foo"; lit "bar"]
  ∧ puterEnabled st' = true
  ∧ puterSignedIn st' = true
  ∧ models st' = [Samples.other_model].
Proof.
  cbn zeta.
  destruct (onMount_only_loads
              (Some (Samples.sdk true (Returns Samples.whole_reply)))
              (created false false None [Samples.other_model]
                 {| s_puterEnabled := Some true;
                    s_puterCustomModels :=
                      Some [LegacyString (lit "foo");
                            StoredObject (Samples.custom "bar")] |}))
    as (_ & _ & _ & _ & Hmodels & _ & Hen & _ & Hids & Hin).
  split; [apply (Hids _ eq_refl)|]. split; [exact Hen|].
  split; [apply Hin; right; reflexivity | exact Hmodels].
Defined.

(* ===================================================================== *)
(** ** The handlers when the awaited calls may be rejected *)
(* ===================================================================== *)

Ltac run_awaits :=
  unfold mbind, mret, PuterAwaits.handler_mbind, PuterAwaits.handler_mret,
    PuterAwaits.handler_bind, PuterAwaits.handler_ret, PuterAwaits.handler_try,
    PuterAwaits.run, PuterAwaits.await, gets, modify, call;
  cbn beta iota zeta delta [fst snd PuterAwaits.settle].

Section Awaits.

Import PuterAwaits.

Variable window : Window.
Variable getModels : Settled (list GlobalModel).
Variable updateUserSettings : Settings → Settled unit.
Variable tr : jsstring → jsstring.
Variable typeErrorMessage : jsstring.

Lemma awaited_refreshGlobalModels_run st :
  PuterAwaits.refreshGlobalModels window getModels st =
    match getModels with
    | Resolves allModels =>
        (exec (PuterConnection.refreshGlobalModels window allModels) st,
         Resolves tt)
    | Rejects v => (st, Rejects v)
    end.
Proof. unfold PuterAwaits.refreshGlobalModels. by destruct getModels. Qed.

Lemma awaited_saveEnabled_run st :
  PuterAwaits.saveEnabled updateUserSettings st =
    let s := {| s_puterEnabled := Some (puterEnabled st);
                s_puterCustomModels := s_puterCustomModels (settings st) |} in
    match updateUserSettings s with
    | Resolves _ =>
        (add_changeEvent (puterEnabled st)
           (add_userSettingsUpdate s (set_settings s st)), Resolves tt)
    | Rejects v => (add_userSettingsUpdate s (set_settings s st), Rejects v)
    end.
Proof.
  unfold PuterAwaits.saveEnabled. run_awaits. cbn.
  by destruct (updateUserSettings _).
Qed.

Lemma awaited_signIn_run authSignIn st :
  PuterAwaits.signIn window authSignIn st =
    (st, match window with
         | None => Rejects (ThrownError sdkNotLoaded)
         | Some _ => authSignIn
         end).
Proof.
  unfold PuterAwaits.signIn. run_awaits.
  destruct window; cbn; [by destruct authSignIn | done].
Qed.

Lemma awaited_signOut_run authSignOut st :
  PuterAwaits.signOut window authSignOut st =
    (st, match window with
         | None => Rejects (ThrownError sdkNotLoaded)
         | Some _ => authSignOut
         end).
Proof. unfold PuterAwaits.signOut. run_awaits. by destruct window. Qed.

End Awaits.

Section AwaitedHandlers.

Import PuterAwaits.

Lemma awaited_handleToggle_run (window : Window)
    (getModels : Settled (list GlobalModel))
    (updateUserSettings : Settings → Settled unit)
    (tr : jsstring → jsstring) st :
  PuterAwaits.handleToggle window getModels updateUserSettings tr st =
    if puterEnabled st then
      if isPuterAvailable window then
        match isSignedIn window with
        | Returns true =>
            let st1 :=
              exec (refreshModels window)
                (match getUser window with
                 | Returns (Some u) =>
                     set_puterUser (Some (username u, email u))
                       (set_puterSignedIn true st)
                 | _ => set_puterSignedIn true st
                 end) in
            match getModels with
            | Resolves allModels =>
                PuterAwaits.saveEnabled updateUserSettings
                  (exec (PuterConnection.refreshGlobalModels window allModels)
                     st1)
            | Rejects v => (st1, Rejects v)
            end
        | _ => PuterAwaits.saveEnabled updateUserSettings st
        end
      else
        (set_puterEnabled false
           (add_toast (toast_error (tr (lit "Puter SDK not available"))) st),
         Resolves tt)
    else
      match getModels with
      | Resolves allModels =>
          PuterAwaits.saveEnabled updateUserSettings
            (exec (PuterConnection.refreshGlobalModels window allModels)
               (set_availableModels [] st))
      | Rejects v => (set_availableModels [] st, Rejects v)
      end.
Proof.
  destruct (getUser_returns window) as [u Hu].
  unfold PuterAwaits.handleToggle. run_awaits.
  destruct (puterEnabled st) eqn:Hon.
  - destruct window as [sdk|]; cbn [isPuterAvailable]; [|reflexivity].
    unfold isSignedIn in *.
    cbn [negb getPuter mbind completion_bind bind mret completion_ret
         isPuterAvailable] in *.
    destruct (auth_isSignedIn (auth sdk)) eqn:Hin; cbn [fst snd settle];
      [|reflexivity].
    rewrite Hu. cbn [fst snd settle].
    destruct u as [u|]; cbn [fst snd settle];
      rewrite refreshModels_run; cbn [fst snd settle];
      rewrite awaited_refreshGlobalModels_run; unfold exec;
      rewrite refreshModels_run; cbn [fst snd];
      by destruct getModels.
  - rewrite awaited_refreshGlobalModels_run. by destruct getModels.
Qed.

(** X23: whatever [_getModels] and [updateUserSettings] settle to,
    [handleToggle] leaves the custom list, the custom list in the settings
    store and the id typed into the input as they were. It catches
    nothing. When [_getModels] is rejected on a path that rebuilds the
    global list (the switch was turned off, or it was turned on with the
    user signed in), [handleToggle] is rejected with the same value, and
    the settings store, the calls of [updateUserSettings], the ['change']
    events, the global list and the switch are as before: nothing is saved
    and nothing is dispatched. When [updateUserSettings] is rejected,
    [handleToggle] is rejected with the same value after the settings
    store has got the new [puterEnabled] and the call has been made, and
    no ['change'] event is dispatched. *)
Theorem handleToggle_rejections (window : Window)
    (getModels : Settled (list GlobalModel))
    (updateUserSettings : Settings → Settled unit)
    (tr : jsstring → jsstring) st :
  let h := PuterAwaits.handleToggle window getModels updateUserSettings tr in
  let st' := fst (h st) in
  let s := {| s_puterEnabled := Some (puterEnabled st);
              s_puterCustomModels := s_puterCustomModels (settings st) |} in
  (customModels st' = customModels st
   ∧ s_puterCustomModels (settings st') = s_puterCustomModels (settings st)
   ∧ newCustomModelId st' = newCustomModelId st)
  ∧ (∀ v, getModels = Rejects v →
          puterEnabled st = false ∨ isSignedIn window = Returns true →
          snd (h st) = Rejects v
          ∧ settings st' = settings st
          ∧ userSettingsUpdates st' = userSettingsUpdates st
          ∧ changeEvents st' = changeEvents st
          ∧ models st' = models st
          ∧ puterEnabled st' = puterEnabled st)
  ∧ (∀ v, updateUserSettings s = Rejects v →
          (∃ allModels, getModels = Resolves allModels)
          ∨ (puterEnabled st = true ∧ isSignedIn window = Returns false) →
          puterEnabled st = false ∨ isPuterAvailable window = true →
          snd (h st) = Rejects v
          ∧ settings st' = s
          ∧ userSettingsUpdates st' = userSettingsUpdates st ++ [s]
          ∧ changeEvents st' = changeEvents st).
Proof.
  cbn zeta. rewrite awaited_handleToggle_run.
  destruct (getUser_returns window) as [u Hu]. rewrite Hu.
  assert (Hsdk : isSignedIn window = Returns true →
                 isPuterAvailable window = true).
  { destruct window; [done | discriminate]. }
  destruct (puterEnabled st) eqn:Hon.
  - destruct (isPuterAvailable window) eqn:Hav.
    + destruct (isSignedIn window) as [[|]|e] eqn:Hin.
      * cbn zeta. unfold exec. rewrite refreshModels_run, Hav. cbn [fst snd].
        destruct getModels as [allModels|v0].
        -- rewrite refreshGlobalModels_run, awaited_saveEnabled_run.
           cbn [fst snd]. cbn zeta.
           destruct u as [u|]; state_fields; rewrite Hon;
             (destruct (updateUserSettings _) as [[]|v1] eqn:Hup;
              cbn [fst snd]; state_fields);
             (split; [done|]); (split; [by intros v [=]|]);
             intros v [=]; try subst v1; done.
        -- destruct u as [u|]; state_fields;
             (split; [done|]);
             (split; [by intros v [= <-]|]);
             intros v _ [[all [=]]|[_ [=]]].
      * rewrite awaited_saveEnabled_run. cbn zeta. rewrite Hon.
        destruct (updateUserSettings _) as [[]|v1] eqn:Hup;
          cbn [fst snd]; state_fields;
          (split; [done|]); (split; [by intros v _ [[=]|[=]]|]);
          intros v [=]; try subst v1; done.
      * rewrite awaited_saveEnabled_run. cbn zeta. rewrite Hon.
        destruct (updateUserSettings _) as [[]|v1] eqn:Hup;
          cbn [fst snd]; state_fields;
          (split; [done|]); (split; [by intros v _ [[=]|[=]]|]);
          intros v [=]; try subst v1; done.
    + cbn [fst snd]. state_fields. split; [done|].
      split; [intros v _ [[=]|Hin]; by apply Hsdk in Hin|].
      by intros v _ _ [[=]|[=]].
  - destruct getModels as [allModels|v0].
    + rewrite awaited_saveEnabled_run. unfold exec.
      rewrite refreshGlobalModels_run. cbn [fst snd]. cbn zeta.
      state_fields. rewrite Hon.
      destruct (updateUserSettings _) as [[]|v1] eqn:Hup;
        cbn [fst snd]; state_fields;
        (split; [done|]); (split; [by intros v [=]|]);
        intros v [=]; try subst v1; done.
    + cbn [fst snd]. state_fields. split; [done|].
      split; [by intros v [= <-]|].
      intros v _ [[all [=]]|[[=] _]].
Qed.

(** X24: [handleSignIn] does not write the settings store, the custom
    list or the switch and does not call [updateUserSettings], whatever
    the sign-in and [_getModels] settle to. When the sign-in fails with an
    error (the SDK is absent, or the SDK rejects with an [Error]) it shows
    ["Sign in failed: "] + the error's message, changes nothing else and
    ends with [loading] false. When the SDK rejects with [null] or
    [undefined], reading [error.message] in the [catch] throws:
    [handleSignIn] is rejected with a [TypeError], shows nothing and
    leaves [loading] true. When the SDK resolves the sign-in to [false],
    nothing changes and nothing is shown. When the sign-in succeeds but
    [_getModels] is rejected with an error, the success notification is
    followed by ["Sign in failed: "] + that error's message, the sign-in
    flag stays set and the global list is as before. *)
Theorem handleSignIn_rejections (window : Window)
    (getModels : Settled (list GlobalModel)) (authSignIn : Settled bool)
    (tr : jsstring → jsstring) (typeErrorMessage : jsstring) st :
  let h := PuterAwaits.handleSignIn window getModels authSignIn tr
             typeErrorMessage in
  let st' := fst (h st) in
  (settings st' = settings st
   ∧ userSettingsUpdates st' = userSettingsUpdates st
   ∧ customModels st' = customModels st
   ∧ puterEnabled st' = puterEnabled st)
  ∧ (∀ e, (window = None ∧ e = sdkNotLoaded)
          ∨ (isPuterAvailable window = true
             ∧ authSignIn = Rejects (ThrownError e)) →
          h st = (set_loading false
                    (add_toast
                       (toast_error (lit "Sign in failed: "
                                     ++ message_of typeErrorMessage e))
                       (set_loading true st)),
                  Resolves tt))
  ∧ (isPuterAvailable window = true →
     authSignIn = Rejects ThrownNullish →
     h st = (set_loading true st, Rejects (ThrownError TypeError)))
  ∧ (isPuterAvailable window = true →
     authSignIn = Resolves false →
     h st = (set_loading false (set_loading true st), Resolves tt))
  ∧ (∀ e, isPuterAvailable window = true →
          authSignIn = Resolves true →
          getModels = Rejects (ThrownError e) →
          snd (h st) = Resolves tt
          ∧ puterSignedIn st' = true
          ∧ models st' = models st
          ∧ loading st' = false
          ∧ toasts st'
            = toasts st
              ++ [toast_success (tr (lit "Signed in with Puter"));
                  toast_error (lit "Sign in failed: "
                               ++ message_of typeErrorMessage e)]).
Proof.
  cbn zeta. destruct (getUser_returns window) as [u Hu].
  unfold PuterAwaits.handleSignIn. run_awaits.
  rewrite awaited_signIn_run. cbn [fst snd].
  split; [|split; [|split; [|split]]].
  - destruct window as [sdk|]; [|by state_fields].
    destruct authSignIn as [[|]|v]; cbn [fst snd settle].
    + rewrite Hu. cbn [fst snd settle].
      destruct u as [u|]; cbn [fst snd settle];
        rewrite refreshModels_run; cbn [fst snd settle isPuterAvailable];
        rewrite awaited_refreshGlobalModels_run;
        (destruct getModels as [allModels|[e| |p]]; cbn [fst snd messageText];
         run_awaits; rewrite ?refreshGlobalModels_run; unfold exec;
         rewrite ?refreshGlobalModels_run; by state_fields).
    + by state_fields.
    + destruct v as [e| |p]; cbn [fst snd messageText]; run_awaits;
        by state_fields.
  - intros e [[-> ->]|[Hav ->]]; [reflexivity|].
    destruct window; [reflexivity | discriminate].
  - intros Hav ->. destruct window; [reflexivity | discriminate].
  - intros Hav ->. destruct window; [reflexivity | discriminate].
  - intros e Hav -> ->. destruct window as [sdk|]; [|discriminate].
    cbn [fst snd settle]. rewrite Hu. cbn [fst snd settle].
    destruct u as [u|]; cbn [fst snd settle];
      rewrite refreshModels_run; cbn [fst snd settle isPuterAvailable];
      rewrite awaited_refreshGlobalModels_run; cbn [fst snd messageText];
      run_awaits; state_fields; rewrite <- app_assoc; done.
Qed.

(** X26: [handleSignOut] does not write the settings store, the custom
    list or the switch and does not call [updateUserSettings], whatever
    the sign-out and [_getModels] settle to. When both resolve, the
    sign-in flag and the user are cleared, the list of available models is
    emptied, success is reported, [loading] ends false, and the global
    list is rebuilt as [refreshGlobalModels] builds it from the state
    before. When the sign-out fails with an error (the SDK is absent, or
    the SDK rejects with an [Error]) it shows ["Sign out failed: "] + the
    error's message, changes nothing else and ends with [loading] false.
    When the SDK rejects with [null] or [undefined], reading
    [error.message] in the [catch] throws: [handleSignOut] is rejected
    with a [TypeError], shows nothing and leaves [loading] true. When the
    sign-out succeeds but [_getModels] is rejected with an error, the
    flags are cleared, the success notification is followed by
    ["Sign out failed: "] + that error's message, and the global list is
    as before. *)
Theorem handleSignOut_rejections (window : Window)
    (getModels : Settled (list GlobalModel)) (authSignOut : Settled unit)
    (tr : jsstring → jsstring) (typeErrorMessage : jsstring) st :
  let h := PuterAwaits.handleSignOut window getModels authSignOut tr
             typeErrorMessage in
  let st' := fst (h st) in
  (settings st' = settings st
   ∧ userSettingsUpdates st' = userSettingsUpdates st
   ∧ customModels st' = customModels st
   ∧ puterEnabled st' = puterEnabled st)
  ∧ (∀ allModels, isPuterAvailable window = true →
          authSignOut = Resolves tt →
          getModels = Resolves allModels →
          snd (h st) = Resolves tt
          ∧ loading st' = false
          ∧ puterSignedIn st' = false
          ∧ puterUser st' = None
          ∧ availableModels st' = []
          ∧ toasts st'
            = toasts st ++ [toast_success (tr (lit "Signed out from Puter"))]
          ∧ models st'
            = models (exec (PuterConnection.refreshGlobalModels window
                              allModels) st))
  ∧ (∀ e, (window = None ∧ e = sdkNotLoaded)
          ∨ (isPuterAvailable window = true
             ∧ authSignOut = Rejects (ThrownError e)) →
          h st = (set_loading false
                    (add_toast
                       (toast_error (lit "Sign out failed: "
                                     ++ message_of typeErrorMessage e))
                       (set_loading true st)),
                  Resolves tt))
  ∧ (isPuterAvailable window = true →
     authSignOut = Rejects ThrownNullish →
     h st = (set_loading true st, Rejects (ThrownError TypeError)))
  ∧ (∀ e, isPuterAvailable window = true →
          authSignOut = Resolves tt →
          getModels = Rejects (ThrownError e) →
          snd (h st) = Resolves tt
          ∧ loading st' = false
          ∧ puterSignedIn st' = false
          ∧ puterUser st' = None
          ∧ availableModels st' = []
          ∧ models st' = models st
          ∧ toasts st'
            = toasts st
              ++ [toast_success (tr (lit "Signed out from Puter"));
                  toast_error (lit "Sign out failed: "
                               ++ message_of typeErrorMessage e)]).
Proof.
  cbn zeta. unfold PuterAwaits.handleSignOut. run_awaits.
  rewrite awaited_signOut_run. cbn [fst snd].
  split; [|split; [|split; [|split]]].
  - destruct window as [sdk|]; [|by state_fields].
    destruct authSignOut as [[]|v]; cbn [fst snd settle].
    + rewrite awaited_refreshGlobalModels_run.
      destruct getModels as [allModels|[e| |p]]; cbn [fst snd messageText];
        run_awaits; unfold exec; rewrite ?refreshGlobalModels_run;
        by state_fields.
    + destruct v as [e| |p]; cbn [fst snd messageText]; run_awaits;
        by state_fields.
  - intros allModels Hav -> ->. destruct window as [sdk|]; [|discriminate].
    cbn [fst snd settle]. rewrite awaited_refreshGlobalModels_run.
    cbn [fst snd]. unfold exec. rewrite !refreshGlobalModels_run.
    by state_fields.
  - intros e [[-> ->]|[Hav ->]]; [reflexivity|].
    destruct window; [reflexivity | discriminate].
  - intros Hav ->. destruct window; [reflexivity | discriminate].
  - intros e Hav -> ->. destruct window as [sdk|]; [|discriminate].
    cbn [fst snd settle]. rewrite awaited_refreshGlobalModels_run.
    cbn [fst snd messageText]. run_awaits. state_fields.
    rewrite <- app_assoc. done.
Qed.

(** When [_getModels] and [updateUserSettings] resolve and the SDK rejects
    with errors only, the handlers do what [PuterConnection] and
    [PuterPanel] say. *)
Lemma awaited_handleToggle_agrees (window : Window) allModels
    (tr : jsstring → jsstring) st :
  PuterAwaits.handleToggle window (Resolves allModels) (λ _, Resolves tt) tr st
    = PuterAwaits.run (PuterConnection.handleToggle window allModels tr) st.
Proof.
  destruct (getUser_returns window) as [u Hu].
  rewrite awaited_handleToggle_run.
  unfold PuterAwaits.run, PuterConnection.handleToggle. run_action.
  destruct (puterEnabled st) eqn:Hon.
  - destruct window as [sdk|]; cbn [isPuterAvailable]; [|reflexivity].
    unfold isSignedIn in *.
    cbn [negb getPuter mbind completion_bind bind mret completion_ret
         isPuterAvailable] in *.
    destruct (auth_isSignedIn (auth sdk)) eqn:Hin; cbn [fst snd settle].
    + rewrite Hu. unfold exec.
      destruct u as [u|]; rewrite !refreshModels_run; cbn [fst snd];
        rewrite !refreshGlobalModels_run; cbn [fst snd];
        rewrite awaited_saveEnabled_run; reflexivity.
    + rewrite awaited_saveEnabled_run. reflexivity.
  - unfold exec. rewrite !refreshGlobalModels_run. cbn [fst snd].
    rewrite awaited_saveEnabled_run. reflexivity.
Qed.

Lemma awaited_handleSignIn_agrees (sdk : Puter) allModels
    (tr : jsstring → jsstring) (typeErrorMessage : jsstring) st :
  PuterAwaits.handleSignIn (Some sdk) (Resolves allModels)
      (settle (auth_signIn (auth sdk))) tr typeErrorMessage st
    = PuterAwaits.run
        (PuterPanel.handleSignIn (Some sdk) allModels tr typeErrorMessage) st.
Proof.
  destruct (getUser_returns (Some sdk)) as [u Hu].
  unfold PuterAwaits.handleSignIn, PuterPanel.handleSignIn. run_awaits.
  rewrite awaited_signIn_run. run_handler. unfold PuterAPI.signIn.
  cbn [getPuter mbind completion_bind bind try_catch].
  destruct (auth_signIn (auth sdk)) as [[|]|e]; cbn [fst snd settle];
    [|reflexivity|reflexivity].
  rewrite Hu. cbn [fst snd settle].
  destruct u as [u|]; cbn [fst snd settle];
    rewrite !refreshModels_run; cbn [fst snd settle];
    rewrite awaited_refreshGlobalModels_run; reflexivity.
Qed.

Lemma awaited_handleSignOut_agrees (sdk : Puter) allModels
    (tr : jsstring → jsstring) (typeErrorMessage : jsstring) st :
  PuterAwaits.handleSignOut (Some sdk) (Resolves allModels)
      (settle (auth_signOut (auth sdk))) tr typeErrorMessage st
    = PuterAwaits.run
        (PuterPanel.handleSignOut (Some sdk) allModels tr typeErrorMessage) st.
Proof.
  unfold PuterAwaits.handleSignOut, PuterPanel.handleSignOut. run_awaits.
  rewrite awaited_signOut_run. run_handler. unfold PuterAPI.signOut.
  cbn [getPuter mbind completion_bind bind].
  destruct (auth_signOut (auth sdk)) as [[]|e]; cbn [fst snd settle];
    [|reflexivity].
  rewrite awaited_refreshGlobalModels_run. reflexivity.
Qed.

End AwaitedHandlers.

Lemma handleToggle_rejections_witness :
  let h := PuterAwaits.handleToggle None
             (PuterAwaits.Rejects AwaitSamples.server_error)
             AwaitSamples.saved Samples.same in
  let h' := PuterAwaits.handleToggle None (PuterAwaits.Resolves [])
              AwaitSamples.not_saved Samples.same in
  let st := Samples.panel false [] "" in
  (snd (h st) = PuterAwaits.Rejects AwaitSamples.server_error
   ∧ settings (fst (h st)) = Samples.no_settings
   ∧ userSettingsUpdates (fst (h st)) = []
   ∧ changeEvents (fst (h st)) = [])
  ∧ (snd (h' st) = PuterAwaits.Rejects AwaitSamples.server_error
     ∧ s_puterEnabled (settings (fst (h' st))) = Some false
     ∧ length (userSettingsUpdates (fst (h' st))) = 1%nat
     ∧ changeEvents (fst (h' st)) = []).
Proof.
  cbn zeta. split.
  - destruct (handleToggle_rejections None
                (PuterAwaits.Rejects AwaitSamples.server_error)
                AwaitSamples.saved Samples.same (Samples.panel false [] ""))
      as (_ & Hmodels & _).
    destruct (Hmodels AwaitSamples.server_error eq_refl (or_introl eq_refl))
      as (Hrej & Hset & Hupd & Hev & _).
    split; [exact Hrej|]. split; [exact Hset|]. split; [exact Hupd | exact Hev].
  - destruct (handleToggle_rejections None (PuterAwaits.Resolves [])
                AwaitSamples.not_saved Samples.same (Samples.panel false [] ""))
      as (_ & _ & Hsave).
    destruct (Hsave AwaitSamples.server_error eq_refl
                (or_introl (ex_intro _ [] eq_refl)) (or_introl eq_refl))
      as (Hrej & Hset & Hupd & Hev).
    split; [exact Hrej|]. split; [by rewrite Hset|].
    split; [by rewrite Hupd | exact Hev].
Defined.

Lemma handleSignIn_rejections_witness :
  let sdk := Some (Samples.sdk false (Returns Samples.whole_reply)) in
  let st := Samples.panel true [] "" in
  PuterAwaits.handleSignIn sdk (PuterAwaits.Resolves [])
      (PuterAwaits.Rejects PuterAwaits.ThrownNullish) Samples.same
      (lit "undefined") st
    = (set_loading true st, PuterAwaits.Rejects (PuterAwaits.ThrownError TypeError))
  ∧ toasts (fst (PuterAwaits.handleSignIn None (PuterAwaits.Resolves [])
                   (PuterAwaits.Resolves true) Samples.same
                   (lit "undefined") st))
    = [toast_error
         (lit "Sign in failed: Puter SDK is not loaded. Make sure the script is included in app.html.")]
  ∧ toasts (fst (PuterAwaits.handleSignIn sdk
                   (PuterAwaits.Rejects AwaitSamples.server_error)
                   (PuterAwaits.Resolves true) Samples.same
                   (lit "undefined") st))
    = [toast_success (lit "Signed in with Puter");
       toast_error (lit "Sign in failed: HTTP 500")].
Proof.
  cbn zeta. split; [|split].
  - destruct (handleSignIn_rejections
                (Some (Samples.sdk false (Returns Samples.whole_reply)))
                (PuterAwaits.Resolves [])
                (PuterAwaits.Rejects PuterAwaits.ThrownNullish) Samples.same
                (lit "undefined") (Samples.panel true [] ""))
      as (_ & _ & Hnull & _).
    apply Hnull; reflexivity.
  - destruct (handleSignIn_rejections None (PuterAwaits.Resolves [])
                (PuterAwaits.Resolves true) Samples.same
                (lit "undefined") (Samples.panel true [] ""))
      as (_ & Hfail & _).
    rewrite (Hfail sdkNotLoaded (or_introl (conj eq_refl eq_refl))).
    vm_compute. reflexivity.
  - destruct (handleSignIn_rejections
                (Some (Samples.sdk false (Returns Samples.whole_reply)))
                (PuterAwaits.Rejects AwaitSamples.server_error)
                (PuterAwaits.Resolves true) Samples.same
                (lit "undefined") (Samples.panel true [] ""))
      as (_ & _ & _ & _ & Hlate).
    destruct (Hlate (Error (lit "HTTP 500")) eq_refl eq_refl eq_refl)
      as (_ & _ & _ & _ & Htoasts).
    rewrite Htoasts. vm_compute. reflexivity.
Defined.

Lemma handleSignOut_rejections_witness :
  let sdk := Some (Samples.sdk true (Returns Samples.whole_reply)) in
  let st := set_puterSignedIn true (Samples.panel true [] "") in
  let st' := fst (PuterAwaits.handleSignOut sdk
                    (PuterAwaits.Resolves [Samples.other_model])
                    (PuterAwaits.Resolves tt) Samples.same
                    (lit "undefined") st) in
  (puterSignedIn st' = false
   ∧ availableModels st' = []
   ∧ models st' = models (exec (refreshGlobalModels sdk [Samples.other_model])
                            st))
  ∧ PuterAwaits.handleSignOut sdk (PuterAwaits.Resolves [])
        (PuterAwaits.Rejects PuterAwaits.ThrownNullish) Samples.same
        (lit "undefined") st
      = (set_loading true st,
         PuterAwaits.Rejects (PuterAwaits.ThrownError TypeError))
  ∧ toasts (fst (PuterAwaits.handleSignOut None (PuterAwaits.Resolves [])
                   (PuterAwaits.Resolves tt) Samples.same
                   (lit "undefined") st))
    = [toast_error
         (lit "Sign out failed: Puter SDK is not loaded. Make sure the script is included in app.html.")].
Proof.
  cbn zeta. split; [|split].
  - destruct (handleSignOut_rejections
                (Some (Samples.sdk true (Returns Samples.whole_reply)))
                (PuterAwaits.Resolves [Samples.other_model])
                (PuterAwaits.Resolves tt) Samples.same (lit "undefined")
                (set_puterSignedIn true (Samples.panel true [] "")))
      as (_ & Hok & _).
    destruct (Hok [Samples.other_model] eq_refl eq_refl eq_refl)
      as (_ & _ & Hin & _ & Hav & _ & Hmodels).
    split; [exact Hin|]. split; [exact Hav | exact Hmodels].
  - destruct (handleSignOut_rejections
                (Some (Samples.sdk true (Returns Samples.whole_reply)))
                (PuterAwaits.Resolves [])
                (PuterAwaits.Rejects PuterAwaits.ThrownNullish) Samples.same
                (lit "undefined")
                (set_puterSignedIn true (Samples.panel true [] "")))
      as (_ & _ & _ & Hnull & _).
    apply Hnull; reflexivity.
  - destruct (handleSignOut_rejections None (PuterAwaits.Resolves [])
                (PuterAwaits.Resolves tt) Samples.same (lit "undefined")
                (set_puterSignedIn true (Samples.panel true [] "")))
      as (_ & _ & Hfail & _).
    rewrite (Hfail sdkNotLoaded (or_introl (conj eq_refl eq_refl))).
    vm_compute. reflexivity.
Defined.
